(** * Context-assembly pipeline of the customer-service dashboard

    A shallow embedding of [src/app/page.tsx]: the relevance selectors
    ([findRelevantTweets], [analyzeSentimentTrends],
    [findRelevantRecommendations], [findRelevantIssues]), the prompt built
    by [processDataForChat], its generation request with the fallback
    reply, the start-up loader [loadData] and the send handler
    [handleSendMessage] of the [Dashboard] component.

    JavaScript strings are modelled as [string] (sequences of 8-bit
    characters); [toLowerCase] and [trim] act on the ASCII range, which is
    exact for ASCII text and leaves every other byte unchanged.  The rows
    of the interaction log are records of dynamically typed values, as
    the CSV reader with dynamic typing produces them, and the code that
    reads them throws where JavaScript throws. *)

From Stdlib Require Import String Ascii List ZArith Lia Bool Arith.
From Stdlib Require Import Permutation Sorted DecimalString.
Import ListNotations.

Local Open Scope string_scope.
Local Open Scope list_scope.

Notation "s1 +++ s2" := (String.append s1 s2)
  (at level 60, right associativity) : string_scope.

(** ** The JavaScript primitives the page relies on *)

Module Js.

(** Exceptions that the modelled code can raise. *)
Inductive JsError : Type :=
| TypeError
| NetworkError
| SyntaxError
| ErrorMsg (msg : string).

(** Outcome of evaluating code that may throw. *)
Inductive Result (A : Type) : Type :=
| Ok (a : A)
| Throw (e : JsError).
Arguments Ok {A} a.
Arguments Throw {A} e.

Definition bind {A B : Type} (r : Result A) (k : A -> Result B) : Result B :=
  match r with
  | Ok a => k a
  | Throw e => Throw e
  end.

Definition is_ok {A : Type} (r : Result A) : bool :=
  match r with Ok _ => true | Throw _ => false end.

(** A dynamically typed value, as a field of a CSV row read with dynamic
    typing holds it: [undefined] for a column the row lacks, [null] for
    an empty cell, a boolean, a number, a [Date] or text.  A number and a
    [Date] are given by the text that [String(v)] yields for them, which
    is all the page ever asks of them. *)
Inductive JsVal : Type :=
| JUndefined
| JNull
| JBool (b : bool)
| JNum (shown : string)
| JDate (shown : string)
| JStr (s : string).

(** [`${v}`]: the text a template literal puts in place of [v]. *)
Definition toString (v : JsVal) : string :=
  match v with
  | JUndefined => "undefined"
  | JNull => "null"
  | JBool true => "true"
  | JBool false => "false"
  | JNum shown => shown
  | JDate shown => shown
  | JStr s => s
  end.

(** [v === s] for a string literal [s]: strict equality never coerces. *)
Definition strict_eq_str (v : JsVal) (s : string) : bool :=
  match v with
  | JStr s' => String.eqb s' s
  | _ => false
  end.

Definition lower_ascii (c : ascii) : ascii :=
  let n := nat_of_ascii c in
  if (65 <=? n)%nat && (n <=? 90)%nat then ascii_of_nat (n + 32) else c.

(** [s.toLowerCase()] *)
Fixpoint toLowerCase (s : string) : string :=
  match s with
  | EmptyString => EmptyString
  | String c s' => String (lower_ascii c) (toLowerCase s')
  end.

(** [v.toLowerCase()] on a dynamically typed value: only text has the
    method; reading it off [null] or [undefined], or calling it on a
    number, a boolean or a [Date], throws a [TypeError]. *)
Definition call_toLowerCase (v : JsVal) : Result string :=
  match v with
  | JStr s => Ok (toLowerCase s)
  | _ => Throw TypeError
  end.

(** [l.filter(p)] for a callback that may throw: the callback runs on
    every element in order and the first exception ends the call. *)
Fixpoint filterM {A : Type} (p : A -> Result bool) (l : list A)
  : Result (list A) :=
  match l with
  | [] => Ok []
  | x :: l' =>
      match p x with
      | Throw e => Throw e
      | Ok b =>
          match filterM p l' with
          | Throw e => Throw e
          | Ok r => Ok (if b then x :: r else r)
          end
      end
  end.

(** [s.startsWith(term)] *)
Fixpoint startsWith (s term : string) : bool :=
  match term, s with
  | EmptyString, _ => true
  | String _ _, EmptyString => false
  | String a term', String b s' => Ascii.eqb a b && startsWith s' term'
  end.

(** [s.includes(term)]: [term] occurs in [s] at some position. *)
Fixpoint includes (s term : string) : bool :=
  startsWith s term ||
  match s with
  | EmptyString => false
  | String _ s' => includes s' term
  end.

(** [s.split(sep)] for a one-character separator.  The empty string
    splits into one empty piece. *)
Fixpoint split (sep : ascii) (s : string) : list string :=
  match s with
  | EmptyString => [EmptyString]
  | String c s' =>
      if Ascii.eqb c sep then EmptyString :: split sep s'
      else match split sep s' with
           | [] => [String c EmptyString]
           | w :: ws => String c w :: ws
           end
  end.

(** [l.join(sep)] *)
Fixpoint join (sep : string) (l : list string) : string :=
  match l with
  | [] => EmptyString
  | [x] => x
  | x :: rest => x +++ sep +++ join sep rest
  end.

Definition is_space (c : ascii) : bool :=
  let n := nat_of_ascii c in
  ((9 <=? n)%nat && (n <=? 13)%nat) || (n =? 32)%nat.

Fixpoint trimStart (s : string) : string :=
  match s with
  | EmptyString => EmptyString
  | String c s' => if is_space c then trimStart s' else s
  end.

Definition reverse (s : string) : string :=
  string_of_list_ascii (rev (list_ascii_of_string s)).

(** [s.trim()] *)
Definition trim (s : string) : string :=
  reverse (trimStart (reverse (trimStart s))).

(** Truthiness of a string: only the empty string is falsy. *)
Definition truthy (s : string) : bool :=
  match s with EmptyString => false | String _ _ => true end.

(** [l[i]]: [None] stands for [undefined], also for a negative index. *)
Definition index {A : Type} (l : list A) (i : Z) : option A :=
  if (i <? 0)%Z then None else nth_error l (Z.to_nat i).

(** [l.slice(start, end)] with JavaScript's relative indices. *)
Definition rel_index (len i : Z) : Z :=
  if (i <? 0)%Z then Z.max (len + i) 0 else Z.min i len.

Definition slice {A : Type} (l : list A) (start end_ : Z) : list A :=
  let len := Z.of_nat (length l) in
  let k := rel_index len start in
  let final := rel_index len end_ in
  firstn (Z.to_nat (final - k)) (skipn (Z.to_nat k) l).

(** [l.slice(start)] *)
Definition slice_from {A : Type} (l : list A) (start : Z) : list A :=
  slice l start (Z.of_nat (length l)).

(** [l.some(p)] *)
Definition some {A : Type} (p : A -> bool) (l : list A) : bool := existsb p l.

(** Template-literal rendering of a length and of an integer count. *)
Definition nat_toString (n : nat) : string :=
  NilEmpty.string_of_uint (Nat.to_uint n).

Definition int_toString (z : Z) : string :=
  NilZero.string_of_int (Z.to_int z).

(** A time value: [None] stands for [NaN]. *)
Definition JsTime : Type := option Z.

(** [a - b] on time values; [NaN] is absorbing. *)
Definition time_sub (a b : JsTime) : JsTime :=
  match a, b with
  | Some x, Some y => Some (x - y)%Z
  | _, _ => None
  end.

(** A comparator result [v] moves the first argument behind the second
    only when [v > 0]; [NaN] counts as [0]. *)
Definition goes_after (v : JsTime) : bool :=
  match v with
  | Some d => (0 <? d)%Z
  | None => false
  end.

(** [l.sort(cmp)]: the sort is stable, which fixes its result for every
    consistent comparator.  [x] is inserted before the first element it
    does not have to follow. *)
Fixpoint sort_insert {A : Type} (cmp : A -> A -> JsTime) (x : A) (l : list A)
  : list A :=
  match l with
  | [] => [x]
  | y :: l' => if goes_after (cmp x y) then y :: sort_insert cmp x l'
               else x :: y :: l'
  end.

Fixpoint sort {A : Type} (cmp : A -> A -> JsTime) (l : list A) : list A :=
  match l with
  | [] => []
  | x :: l' => sort_insert cmp x (sort cmp l')
  end.

(** Ascending order of a time that every element has. *)
Definition not_later {A : Type} (time : A -> Z) (a b : A) : Prop :=
  (time a <= time b)%Z.

End Js.

Notation "x <- r ;; k" := (Js.bind r (fun x => k))
  (at level 61, r at next level, right associativity).

Import Js.

(** ** Data model *)

(** One row of the interaction log, as the CSV reader hands it over:
    every field is the dynamically typed value of its cell. *)
Record Tweet : Type := mkTweet {
  tweet_id : JsVal;
  author_id : JsVal;
  inbound : JsVal;
  created_at : JsVal;
  text : JsVal;
  response_tweet_id : JsVal
}.

(** An entry of [keyIssues] or of [recommendations]. *)
Record Item : Type := mkItem {
  id : Z;
  title : string;
  description : string
}.

Record AnalysisData : Type := mkAnalysisData {
  timestamp : string;
  keyIssues : list Item;
  recommendations : list Item
}.

Inductive Role : Type := user | assistant.

Record Message : Type := mkMessage {
  role : Role;
  content : string
}.

(** What the page takes from its JavaScript environment: the number type
    of [average_score] with its [toFixed(2)], the time value of
    [new Date(key)], and the CSV reader configured as in [loadData]
    (header row, empty lines skipped, dynamic typing), which reports
    malformed rows in a field that the page does not read and does not
    throw. *)
Class Runtime : Type := {
  Score : Type;
  toFixed2 : Score -> string;
  Date_getTime : string -> JsTime;
  Papa_parse_data : string -> list Tweet
}.

Section Pipeline.

Context {RT : Runtime}.

Record MonthData : Type := mkMonthData {
  average_score : Score;
  positive : Z;
  negative : Z;
  neutral : Z
}.

(** [Object.entries] of the sentiment map, in property order. *)
Definition MonthEntry : Type := (string * MonthData)%type.

(** The sentiment document; [None] for a document without the
    [monthly_sentiment] key. *)
Record SentimentData : Type := mkSentimentData {
  monthly_sentiment : option (list MonthEntry)
}.

(** ** Relevance selector *)

Definition searchTerms (query : string) : list string :=
  split " "%char (toLowerCase query).

(** The callback of the filter: it throws when the text of the row is
    not a string. *)
Definition tweet_matches (query : string) (tweet : Tweet) : Result bool :=
  tweetText <- call_toLowerCase (text tweet) ;;
  Ok (some (fun term => includes tweetText term) (searchTerms query)).

Definition findRelevantTweets (tweets : list Tweet) (query : string)
  (limit : Z) : Result (list Tweet) :=
  matches <- filterM (tweet_matches query) tweets ;;
  Ok (slice matches 0 limit).

Definition item_matches (query : string) (it : Item) : bool :=
  some (fun term =>
          includes (toLowerCase (title it)) term ||
          includes (toLowerCase (description it)) term)
       (searchTerms query).

(** [Object.entries(x)] throws on [undefined]. *)
Definition Object_entries {A : Type} (o : option (list A)) : Result (list A) :=
  match o with
  | Some l => Ok l
  | None => Throw TypeError
  end.

(** Reading a property of [null] throws. *)
Definition deref {A : Type} (o : option A) : Result A :=
  match o with
  | Some a => Ok a
  | None => Throw TypeError
  end.

Definition by_date (a b : MonthEntry) : JsTime :=
  time_sub (Date_getTime (fst a)) (Date_getTime (fst b)).

Record Trends : Type := mkTrends {
  earliest : option MonthEntry;
  latest : option MonthEntry;
  trend : list MonthEntry
}.

Definition analyzeSentimentTrends (sentimentData : option SentimentData)
  : Result Trends :=
  sd <- deref sentimentData ;;
  entries <- Object_entries (monthly_sentiment sd) ;;
  let sortedMonths := sort by_date entries in
  Ok {| earliest := index sortedMonths 0;
        latest := index sortedMonths (Z.of_nat (length sortedMonths) - 1);
        trend := slice_from sortedMonths (-3) |}.

Definition findRelevantRecommendations (analysisData : option AnalysisData)
  (query : string) : Result (list Item) :=
  ad <- deref analysisData ;;
  Ok (filter (item_matches query) (recommendations ad)).

Definition findRelevantIssues (analysisData : option AnalysisData)
  (query : string) : Result (list Item) :=
  ad <- deref analysisData ;;
  Ok (filter (item_matches query) (keyIssues ad)).

(** The four selections [processDataForChat] computes before it builds
    the prompt. *)
Record Selection : Type := mkSelection {
  relevantTweets : list Tweet;
  sentimentTrends : Trends;
  relevantRecommendations : list Item;
  relevantIssues : list Item
}.

Definition select (query : string) (analysisData : option AnalysisData)
  (sentimentData : option SentimentData) (tweets : list Tweet)
  : Result Selection :=
  rt <- findRelevantTweets tweets query 5 ;;
  st <- analyzeSentimentTrends sentimentData ;;
  rr <- findRelevantRecommendations analysisData query ;;
  ri <- findRelevantIssues analysisData query ;;
  Ok {| relevantTweets := rt; sentimentTrends := st;
        relevantRecommendations := rr; relevantIssues := ri |}.

(** The sentiment part of a selection. *)
Definition summary_of (r : Result Selection) : Result Trends :=
  sel <- r ;; Ok (sentimentTrends sel).

(** Chronological order of two entries with valid period keys. *)
Definition chronological (a b : MonthEntry) : Prop :=
  match Date_getTime (fst a), Date_getTime (fst b) with
  | Some x, Some y => (x <= y)%Z
  | _, _ => False
  end.

Definition valid_key (e : MonthEntry) : Prop := Date_getTime (fst e) <> None.

Definition key_time (e : MonthEntry) : Z :=
  match Date_getTime (fst e) with Some t => t | None => 0%Z end.

(** ** Prompt composer *)

Definition nl : string := String "010"%char EmptyString.
Definition dq : string := String "034"%char EmptyString.

Definition speaker (t : Tweet) : string :=
  if strict_eq_str (inbound t) "True" then "Customer" else "Amazon".

(** The interaction as the prompt shows it, and its bulleted line. *)
Definition interaction_text (t : Tweet) : string :=
  "[" +++ toString (created_at t) +++ "] " +++ speaker t +++ ": " +++ dq +++
  toString (text t) +++ dq.

Definition tweet_line (t : Tweet) : string :=
  "  * " +++ interaction_text t.

Definition month_line (e : MonthEntry) : string :=
  let (month, data) := e in
  "  * " +++ month +++ ": Score=" +++ toFixed2 (average_score data) +++
  " (" +++ int_toString (positive data) +++ " positive, " +++
  int_toString (negative data) +++ " negative, " +++
  int_toString (neutral data) +++ " neutral)".

Definition item_line (i : Item) : string :=
  "  * " +++ title i +++ ": " +++ description i.

(** [o[0]] for an entry that may be [undefined]. *)
Definition entry_key (o : option MonthEntry) : Result string :=
  e <- deref o ;; Ok (fst e).

Definition preamble : string :=
"You are a data analysis assistant working with Amazon customer service data. You have access to these three data sources:

AVAILABLE DATA SOURCES:

".

Definition tweets_header (total : nat) : string :=
"1. amazonhelp_tweets.csv - Customer Service Interactions:
- Total tweets in dataset: " +++ nat_toString total +++ "
- Tweet fields: tweet_id, author_id, inbound, created_at, text, response_tweet_id
- Relevant examples for this query:
".

Definition tweets_section (total : nat) (rt : list Tweet) : string :=
  tweets_header total +++ join nl (map tweet_line rt) +++ nl +++ nl.

Definition sentiment_section (first_key last_key : string)
  (tr : list MonthEntry) : string :=
"2. amazon_monthly_sentiment.json - Sentiment Analysis:
- Time range: " +++ first_key +++ " to " +++ last_key +++ "
- Recent trends:
" +++ join nl (map month_line tr) +++ nl +++ nl.

Definition issues_header (ts : string) : string :=
"3. amazonhelp_analysis.json - Service Analysis:
- Analysis timestamp: " +++ ts +++ "
- Relevant Key Issues:
".

Definition recommendations_header : string :=
"- Relevant Recommendations:
".

Definition analysis_section (ts : string) (ri rr : list Item) : string :=
  issues_header ts +++ join nl (map item_line ri) +++ nl +++
  recommendations_header +++ join nl (map item_line rr) +++ nl +++ nl.

Definition instructions : string :=
"INSTRUCTIONS:
1. Only use data from these three sources
2. If information isn't in these sources, state that explicitly
3. Keep responses focused on the actual data
4. Please summarize the key information without extra details
5. Give me the most relevant fact, no additional context

".

Definition question (query : string) : string :=
  "User Question: " +++ query +++ nl +++ nl.

Definition closing : string :=
"Based on ONLY the above data sources, provide an evidence-based response:".

(** What the template reads besides the selection: [tweets.length] and
    [analysisData.timestamp]. *)
Record ReportMeta : Type := mkReportMeta {
  total_tweets : nat;
  report_timestamp : string
}.

(** The template literal [context], evaluated left to right. *)
Definition compose (query : string) (sel : Selection) (meta : ReportMeta)
  : Result string :=
  let s1 := tweets_section (total_tweets meta) (relevantTweets sel) in
  first_key <- entry_key (earliest (sentimentTrends sel)) ;;
  last_key <- entry_key (latest (sentimentTrends sel)) ;;
  let s2 := sentiment_section first_key last_key (trend (sentimentTrends sel)) in
  let s3 := analysis_section (report_timestamp meta) (relevantIssues sel)
                             (relevantRecommendations sel) in
  Ok (preamble +++ s1 +++ s2 +++ s3 +++ instructions +++ question query +++
      closing).

Definition report_meta (analysisData : option AnalysisData)
  (tweets : list Tweet) : Result ReportMeta :=
  ad <- deref analysisData ;;
  Ok {| total_tweets := length tweets; report_timestamp := timestamp ad |}.

(** The synchronous part of [processDataForChat]: selection, then the
    prompt. *)
Definition buildContext (query : string) (analysisData : option AnalysisData)
  (sentimentData : option SentimentData) (tweets : list Tweet)
  : Result string :=
  sel <- select query analysisData sentimentData tweets ;;
  meta <- report_meta analysisData tweets ;;
  compose query sel meta.

(** The texts the template puts under the three list headers. *)
Definition examples_body (sel : Selection) : string :=
  join nl (map tweet_line (relevantTweets sel)).

Definition issues_body (sel : Selection) : string :=
  join nl (map item_line (relevantIssues sel)).

Definition recommendations_body (sel : Selection) : string :=
  join nl (map item_line (relevantRecommendations sel)).

(** A list header is followed by some statement. *)
Definition states_something (body : string) : Prop := body <> EmptyString.

(** What the specification asks of a selection without matching
    interactions: some statement stands under the interaction header. *)
Definition empty_evidence_is_stated (sel : Selection) : Prop :=
  relevantTweets sel = [] -> states_something (examples_body sel).

End Pipeline.

(** ** Generation client *)

Definition fallback : string :=
  "Sorry, I encountered an error processing your request. Please try again.".

(** The body of the POST to [http://localhost:11434/api/generate]. *)
Record GenerateRequest : Type := mkGenerateRequest {
  model : string;
  prompt : string;
  stream : bool;
  temperature : string;
  max_tokens : Z;
  stop : list string
}.

Definition generate_request (context : string) : GenerateRequest :=
  {| model := "llama3.1"; prompt := context; stream := false;
     temperature := "0.1"; max_tokens := 500;
     stop := ["User Question:"; "INSTRUCTIONS:"] |}.

(** How the backend answers one request: [fetch] rejects, or a response
    arrives with its [ok] flag and a body; [None] is a body that
    [response.json()] cannot parse, [Some r] a document whose [response]
    field is [r]. *)
Inductive BackendOutcome : Type :=
| Unreachable
| Responded (ok : bool) (body : option string).

(** The [try] block of [processDataForChat]. *)
Definition request_reply (o : BackendOutcome) : Result string :=
  match o with
  | Unreachable => Throw NetworkError
  | Responded ok body =>
      if negb ok then Throw (ErrorMsg "Network response was not ok")
      else match body with
           | None => Throw SyntaxError
           | Some r => Ok r
           end
  end.

(** The [try]/[catch] of [processDataForChat]: what the call resolves
    to once the backend has answered. *)
Definition generate (o : BackendOutcome) : string :=
  match request_reply o with
  | Ok r => r
  | Throw _ => fallback
  end.

(** A failed generation: no connection, or a status outside 200-299. *)
Definition generation_failed (o : BackendOutcome) : Prop :=
  o = Unreachable \/ exists body, o = Responded false body.

(** ** The Dashboard component *)

Section Dashboard.

Context {RT : Runtime}.

Record ChartPoint : Type := mkChartPoint {
  date : string;
  sentiment : Score;
  chart_positive : Z;
  chart_negative : Z;
  chart_neutral : Z
}.

(** The [useState] cells of [Dashboard]. *)
Record AppState : Type := mkAppState {
  analysisData : option AnalysisData;
  loading : bool;
  messages : list Message;
  input : string;
  chatLoading : bool;
  chartData : list ChartPoint;
  tweets : list Tweet;
  sentimentData : option SentimentData
}.

Definition initial : AppState :=
  {| analysisData := None; loading := true; messages := [];
     input := EmptyString; chatLoading := false; chartData := [];
     tweets := []; sentimentData := None |}.

Definition setAnalysisData (v : option AnalysisData) (s : AppState) : AppState :=
  {| analysisData := v; loading := loading s; messages := messages s;
     input := input s; chatLoading := chatLoading s;
     chartData := chartData s; tweets := tweets s;
     sentimentData := sentimentData s |}.

Definition setLoading (v : bool) (s : AppState) : AppState :=
  {| analysisData := analysisData s; loading := v; messages := messages s;
     input := input s; chatLoading := chatLoading s;
     chartData := chartData s; tweets := tweets s;
     sentimentData := sentimentData s |}.

Definition setMessages (f : list Message -> list Message) (s : AppState)
  : AppState :=
  {| analysisData := analysisData s; loading := loading s;
     messages := f (messages s); input := input s;
     chatLoading := chatLoading s; chartData := chartData s;
     tweets := tweets s; sentimentData := sentimentData s |}.

Definition setInput (v : string) (s : AppState) : AppState :=
  {| analysisData := analysisData s; loading := loading s;
     messages := messages s; input := v; chatLoading := chatLoading s;
     chartData := chartData s; tweets := tweets s;
     sentimentData := sentimentData s |}.

Definition setChatLoading (v : bool) (s : AppState) : AppState :=
  {| analysisData := analysisData s; loading := loading s;
     messages := messages s; input := input s; chatLoading := v;
     chartData := chartData s; tweets := tweets s;
     sentimentData := sentimentData s |}.

Definition setChartData (v : list ChartPoint) (s : AppState) : AppState :=
  {| analysisData := analysisData s; loading := loading s;
     messages := messages s; input := input s;
     chatLoading := chatLoading s; chartData := v; tweets := tweets s;
     sentimentData := sentimentData s |}.

Definition setTweets (v : list Tweet) (s : AppState) : AppState :=
  {| analysisData := analysisData s; loading := loading s;
     messages := messages s; input := input s;
     chatLoading := chatLoading s; chartData := chartData s; tweets := v;
     sentimentData := sentimentData s |}.

Definition setSentimentData (v : option SentimentData) (s : AppState)
  : AppState :=
  {| analysisData := analysisData s; loading := loading s;
     messages := messages s; input := input s;
     chatLoading := chatLoading s; chartData := chartData s;
     tweets := tweets s; sentimentData := v |}.

(** What the component returns: the loading banner, [null], or the
    dashboard with its chat box. *)
Inductive View : Type := ViewLoading | ViewNull | ViewDashboard.

Definition render (s : AppState) : View :=
  if loading s then ViewLoading
  else match analysisData s with
       | None => ViewNull
       | Some _ => ViewDashboard
       end.

(** *** Start-up loading *)

(** One [fetch]: it rejects, or it resolves to a response whose body
    reads ([json()] or [text()]) to a value or fails to. *)
Inductive Fetched (A : Type) : Type :=
| Rejected
| Resolved (body : option A).
#[global] Arguments Rejected {A}.
#[global] Arguments Resolved {A} body.

(** The parsed report document; [analysisData_of] is [None] when the
    document has no [analysisData] key. *)
Record AnalysisJson : Type := mkAnalysisJson {
  analysisData_of : option AnalysisData
}.

Record LoadInputs : Type := mkLoadInputs {
  analysisResponse : Fetched AnalysisJson;
  sentimentResponse : Fetched SentimentData;
  tweetsResponse : Fetched string
}.

(** [Promise.all] of the three fetches: the three responses, or a
    rejection when any fetch rejects. *)
Definition fetch_all (inp : LoadInputs)
  : Result (option AnalysisJson * option SentimentData * option string) :=
  match analysisResponse inp, sentimentResponse inp, tweetsResponse inp with
  | Resolved a, Resolved b, Resolved c => Ok (a, b, c)
  | _, _, _ => Throw NetworkError
  end.

(** Reading a body: a failed read rejects. *)
Definition read_body {A : Type} (body : option A) : Result A :=
  match body with
  | Some v => Ok v
  | None => Throw SyntaxError
  end.

Definition chart_point (e : MonthEntry) : ChartPoint :=
  let (d, data) := e in
  {| date := d; sentiment := average_score data;
     chart_positive := positive data; chart_negative := negative data;
     chart_neutral := neutral data |}.

Definition by_chart_date (a b : ChartPoint) : JsTime :=
  time_sub (Date_getTime (date a)) (Date_getTime (date b)).

(** The [try] block of [loadData]: the state setters it has called, in
    order, and whether it ran to its end or threw. *)
Definition loadData_try (inp : LoadInputs)
  : list (AppState -> AppState) * Result unit :=
  match fetch_all inp with
  | Throw e => ([], Throw e)
  | Ok (a, b, c) =>
    match read_body a with
    | Throw e => ([], Throw e)
    | Ok analysisJson =>
      match read_body b with
      | Throw e => ([], Throw e)
      | Ok sentimentJson =>
        match read_body c with
        | Throw e => ([], Throw e)
        | Ok tweetsText =>
          let sets :=
            [setAnalysisData (analysisData_of analysisJson);
             setSentimentData (Some sentimentJson);
             setTweets (Papa_parse_data tweetsText)] in
          match Object_entries (monthly_sentiment sentimentJson) with
          | Throw e => (sets, Throw e)
          | Ok entries =>
              let monthlyData := sort by_chart_date (map chart_point entries) in
              (sets ++ [setChartData monthlyData], Ok tt)
          end
        end
      end
    end
  end.

(** [loadData]: the [try] block, a [catch] that only logs, and the
    [finally] block. *)
Definition loadData_sets (inp : LoadInputs) : list (AppState -> AppState) :=
  fst (loadData_try inp) ++ [setLoading false].

(** The states the component goes through, one after each setter. *)
Fixpoint run_sets (sets : list (AppState -> AppState)) (s : AppState)
  : list AppState :=
  match sets with
  | [] => []
  | f :: rest => f s :: run_sets rest (f s)
  end.

Definition loadData (inp : LoadInputs) (s : AppState) : AppState :=
  fold_left (fun st f => f st) (loadData_sets inp) s.

(** A load fails when a fetch rejects or a body does not parse. *)
Definition fetch_or_parse_fails (inp : LoadInputs) : Prop :=
  analysisResponse inp = Rejected \/ analysisResponse inp = Resolved None \/
  sentimentResponse inp = Rejected \/ sentimentResponse inp = Resolved None \/
  tweetsResponse inp = Rejected \/ tweetsResponse inp = Resolved None.

(** *** Sending a message *)

(** The component state together with the generation calls that have
    been issued and have not settled yet. *)
Record World : Type := mkWorld {
  app : AppState;
  inflight : list GenerateRequest
}.

Definition assistant_says (response : string) (prev : list Message)
  : list Message :=
  prev ++ [{| role := assistant; content := response |}].

(** [handleSendMessage], up to the point where it waits for the
    backend.  When [processDataForChat] throws while it builds the
    prompt, no request goes out and the [catch] and [finally] blocks run
    at once. *)
Definition handleSendMessage (w : World) : World :=
  let s := app w in
  if negb (truthy (trim (input s))) then w
  else
    let newUserMessage := {| role := user; content := input s |} in
    let s1 := setChatLoading true
                (setInput EmptyString
                   (setMessages (fun prev => prev ++ [newUserMessage]) s)) in
    match buildContext (input s) (analysisData s) (sentimentData s) (tweets s) with
    | Ok context =>
        {| app := s1; inflight := inflight w ++ [generate_request context] |}
    | Throw _ =>
        {| app := setChatLoading false (setMessages (assistant_says fallback) s1);
           inflight := inflight w |}
    end.

Fixpoint remove_nth {A : Type} (n : nat) (l : list A) : list A :=
  match n, l with
  | _, [] => []
  | O, _ :: l' => l'
  | S n', x :: l' => x :: remove_nth n' l'
  end.

(** The rest of [handleSendMessage], run when the [n]-th pending call
    is answered. *)
Definition settle (n : nat) (o : BackendOutcome) (w : World) : World :=
  match nth_error (inflight w) n with
  | None => w
  | Some _ =>
      let response := generate o in
      {| app := setChatLoading false
                  (setMessages (assistant_says response) (app w));
         inflight := remove_nth n (inflight w) |}
  end.

(** What can happen to the rendered page. *)
Inductive Event : Type :=
| Change (value : string)
| KeyPressEnter
| ClickSend
| Settle (n : nat) (o : BackendOutcome).

(** The input box and the button exist only in the dashboard view; the
    button is disabled while [chatLoading] holds, the input box is not. *)
Definition step (w : World) (e : Event) : World :=
  match e with
  | Settle n o => settle n o w
  | _ =>
    match render (app w) with
    | ViewDashboard =>
        match e with
        | Change value => {| app := setInput value (app w); inflight := inflight w |}
        | KeyPressEnter => handleSendMessage w
        | ClickSend => if chatLoading (app w) then w else handleSendMessage w
        | Settle _ _ => w
        end
    | _ => w
    end
  end.

Definition run (w : World) (es : list Event) : World := fold_left step es w.

(** [send(query)]: the query is typed and submitted with the Enter key. *)
Definition send (query : string) : list Event := [Change query; KeyPressEnter].

Definition user_messages (w : World) : list string :=
  map content (filter (fun m => match role m with user => true | _ => false end)
                 (messages (app w))).

End Dashboard.

(** ** Vocabulary for the transcript and for event sequences *)

Definition is_assistant (m : Message) : bool :=
  match role m with assistant => true | user => false end.

(** A transcript made of complete exchanges: a user message, its reply,
    and so on. *)
Fixpoint exchanges (ms : list Message) : bool :=
  match ms with
  | [] => true
  | m1 :: rest =>
      match role m1, rest with
      | user, m2 :: rest' =>
          match role m2 with
          | assistant => exchanges rest'
          | user => false
          end
      | _, _ => false
      end
  end.

(** A row whose text is text, and a log of such rows. *)
Definition text_is_string (t : Tweet) : Prop := exists s, text t = JStr s.

Definition strings_only (tweets : list Tweet) : Prop :=
  Forall text_is_string tweets.

(** The test of the filter on a row whose text is a string; a row with
    any other text never gets as far as a verdict. *)
Definition matches_query (query : string) (t : Tweet) : bool :=
  match text t with
  | JStr s => some (fun term => includes (toLowerCase s) term) (searchTerms query)
  | _ => false
  end.

(** The characters of a string that [trim] removes when they stand at an
    end. *)
Definition blank (s : string) : Prop :=
  Forall (fun c => is_space c = true) (list_ascii_of_string s).

Section Transcript.

Context {RT : Runtime}.

Definition assistant_messages (w : World) : list string :=
  map content (filter is_assistant (messages (app w))).

(** Every user message has its reply or a generation call that is still
    pending. *)
Definition balanced (w : World) : Prop :=
  length (user_messages w) =
  (length (assistant_messages w) + length (inflight w))%nat.

(** Sends issued with the button only. *)
Definition button_only (es : list Event) : Prop :=
  Forall (fun e => e <> KeyPressEnter) es.

(** The two states of a conversation: idle after complete exchanges, or
    sending with one pending call for the last user message. *)
Definition idle (w : World) : Prop :=
  chatLoading (app w) = false /\ inflight w = [] /\
  exchanges (messages (app w)) = true.

Definition sending (w : World) : Prop :=
  chatLoading (app w) = true /\ length (inflight w) = 1%nat /\
  exists ms q, messages (app w) = ms ++ [ {| role := user; content := q |} ]
               /\ exchanges ms = true.

(** The reply that [settle] appends for a backend outcome. *)
Definition reply_of (o : BackendOutcome) : string :=
  match o with
  | Responded true (Some r) => r
  | _ => fallback
  end.

End Transcript.

(** ** A concrete runtime for examples

    Period keys in the ISO forms [YYYY], [YYYY-MM] and [YYYY-MM-DD] are
    read as UTC dates; scores are given in hundredths; the CSV reader
    handles unquoted, comma-separated rows. *)

Module Example.

Definition digit (c : ascii) : option Z :=
  let n := nat_of_ascii c in
  if (48 <=? n)%nat && (n <=? 57)%nat then Some (Z.of_nat (n - 48)) else None.

Fixpoint digits_acc (s : string) (acc : Z) : option Z :=
  match s with
  | EmptyString => Some acc
  | String c s' =>
      match digit c with
      | Some d => digits_acc s' (10 * acc + d)%Z
      | None => None
      end
  end.

Definition digits (s : string) : option Z :=
  match s with
  | EmptyString => None
  | _ => digits_acc s 0
  end.

(** Days from 1970-01-01 to the given civil date. *)
Definition days_from_civil (y m d : Z) : Z :=
  let y' := if (m <=? 2)%Z then (y - 1)%Z else y in
  let era := (y' / 400)%Z in
  let yoe := (y' - era * 400)%Z in
  let mp := ((m + 9) mod 12)%Z in
  let doy := ((153 * mp + 2) / 5 + d - 1)%Z in
  let doe := (yoe * 365 + yoe / 4 - yoe / 100 + doy)%Z in
  (era * 146097 + doe - 719468)%Z.

Definition is_leap (y : Z) : bool :=
  ((y mod 4 =? 0)%Z && negb (y mod 100 =? 0)%Z) || (y mod 400 =? 0)%Z.

Definition days_in_month (y m : Z) : Z :=
  if (m =? 2)%Z then (if is_leap y then 29 else 28)%Z
  else if ((m =? 4) || (m =? 6) || (m =? 9) || (m =? 11))%Z then 30%Z
  else 31%Z.

Definition utc_ms (y m d : Z) : JsTime :=
  if ((1 <=? m) && (m <=? 12) && (1 <=? d) && (d <=? days_in_month y m))%Z
  then Some (days_from_civil y m d * 86400000)%Z
  else None.

Definition iso_getTime (s : string) : JsTime :=
  match digits (substring 0 4 s) with
  | None => None
  | Some y =>
      if (String.length s =? 4)%nat then utc_ms y 1 1
      else if (String.length s =? 7)%nat && String.eqb (substring 4 1 s) "-" then
        match digits (substring 5 2 s) with
        | Some m => utc_ms y m 1
        | None => None
        end
      else if (String.length s =? 10)%nat && String.eqb (substring 4 1 s) "-"
              && String.eqb (substring 7 1 s) "-" then
        match digits (substring 5 2 s), digits (substring 8 2 s) with
        | Some m, Some d => utc_ms y m d
        | _, _ => None
        end
      else None
  end.

Definition two_digits (z : Z) : string :=
  if (z <? 10)%Z then "0" +++ int_toString z else int_toString z.

(** [toFixed(2)] of the number [h / 100]. *)
Definition hundredths_toFixed2 (h : Z) : string :=
  (if (h <? 0)%Z then "-" else EmptyString) +++
  int_toString (Z.abs h / 100) +++ "." +++ two_digits (Z.abs h mod 100).

(** Dynamic typing of a cell: the words [true], [TRUE], [false] and
    [FALSE] become booleans, digit strings below 2^53 numbers, the empty
    cell null; every other cell stays text.  This reader is an example
    and knows whole numbers only: it leaves signed numbers, decimal
    fractions and ISO date-times, which the real reader types as numbers
    and dates, as text. *)
Definition dynamic (cell : string) : JsVal :=
  if String.eqb cell "true" || String.eqb cell "TRUE" then JBool true
  else if String.eqb cell "false" || String.eqb cell "FALSE" then JBool false
  else match digits cell with
       | Some n => if (n <? 9007199254740992)%Z then JNum (int_toString n)
                   else JStr cell
       | None => match cell with
                 | EmptyString => JNull
                 | _ => JStr cell
                 end
       end.

(** The field of a row under a column name; a row that is too short, or
    a header without the name, leaves the field undefined. *)
Fixpoint column (name : string) (header row : list string) : JsVal :=
  match header, row with
  | h :: header', c :: row' =>
      if String.eqb h name then dynamic c else column name header' row'
  | _, _ => JUndefined
  end.

Definition row_tweet (header : list string) (line : string) : Tweet :=
  let row := split ","%char line in
  {| tweet_id := column "tweet_id" header row;
     author_id := column "author_id" header row;
     inbound := column "inbound" header row;
     created_at := column "created_at" header row;
     text := column "text" header row;
     response_tweet_id := column "response_tweet_id" header row |}.

Definition csv_rows (csv : string) : list Tweet :=
  match filter truthy (split "010"%char csv) with
  | [] => []
  | header :: lines => map (row_tweet (split ","%char header)) lines
  end.

#[export] Instance runtime : Runtime :=
  {| Score := Z;
     toFixed2 := hundredths_toFixed2;
     Date_getTime := iso_getTime;
     Papa_parse_data := csv_rows |}.

Definition refund_tweet (T : string) : Tweet :=
  {| tweet_id := JNum "1"; author_id := JNum "115712"; inbound := JStr "True";
     created_at := JStr T; text := JStr "Please refund my order";
     response_tweet_id := JNull |}.

Definition sample_tweets : list Tweet :=
  [ refund_tweet "Tue Oct 31 22:10:47 +0000 2017";
    {| tweet_id := JNum "2"; author_id := JStr "AmazonHelp";
       inbound := JStr "False";
       created_at := JStr "Tue Oct 31 22:15:02 +0000 2017";
       text := JStr "We are sorry for the delay";
       response_tweet_id := JNum "1" |} ].

Definition jan2020 : MonthEntry :=
  ("2020-01", @mkMonthData runtime 12%Z 5%Z 3%Z 2%Z).

Definition feb2020 : MonthEntry :=
  ("2020-02", @mkMonthData runtime 40%Z 9%Z 1%Z 6%Z).

Definition mar2020 : MonthEntry :=
  ("2020-03", @mkMonthData runtime (-7)%Z 1%Z 4%Z 0%Z).

Definition sample_sentiment : SentimentData :=
  {| monthly_sentiment := Some [jan2020; mar2020; feb2020] |}.

Definition empty_sentiment : SentimentData :=
  {| monthly_sentiment := Some [] |}.

Definition sample_analysis : AnalysisData :=
  {| timestamp := "2024-11-20T10:00:00";
     keyIssues := [ {| id := 1%Z; title := "Late delivery";
                       description := "Orders arrive after the promised date" |} ];
     recommendations := [ {| id := 1%Z; title := "Faster refunds";
                             description := "Shorten the refund process" |} ] |}.

Definition sample_csv : string :=
"tweet_id,author_id,inbound,created_at,text,response_tweet_id
1,115712,True,Tue Oct 31 22:10:47 +0000 2017,Please refund my order,

2,AmazonHelp,False,Tue Oct 31 22:15:02 +0000 2017,We are sorry for the delay,1
".

Definition sample_inputs : LoadInputs :=
  {| analysisResponse := Resolved (Some {| analysisData_of := Some sample_analysis |});
     sentimentResponse := Resolved (Some sample_sentiment);
     tweetsResponse := Resolved (Some sample_csv) |}.

(** The answer of a server to the request for a file it does not have:
    status 404 and a page of markup.  [loadData] does not look at the
    status of a response, so the answer counts as the log. *)
Definition not_found_page : string :=
"<!DOCTYPE html>
<html>
<body>404: This page could not be found.</body>
</html>
".

Definition inputs_without_log : LoadInputs :=
  {| analysisResponse := Resolved (Some {| analysisData_of := Some sample_analysis |});
     sentimentResponse := Resolved (Some sample_sentiment);
     tweetsResponse := Resolved (Some not_found_page) |}.

(** The page once [loadData] has run on the sample files. *)
Definition loaded : World :=
  {| app := loadData sample_inputs initial; inflight := [] |}.

(** The prompt for the query "zzz", which matches nothing in the sample
    data. *)
Definition zzz_prompt : string :=
"You are a data analysis assistant working with Amazon customer service data. You have access to these three data sources:

AVAILABLE DATA SOURCES:

1. amazonhelp_tweets.csv - Customer Service Interactions:
- Total tweets in dataset: 2
- Tweet fields: tweet_id, author_id, inbound, created_at, text, response_tweet_id
- Relevant examples for this query:


2. amazon_monthly_sentiment.json - Sentiment Analysis:
- Time range: 2020-01 to 2020-03
- Recent trends:
  * 2020-01: Score=0.12 (5 positive, 3 negative, 2 neutral)
  * 2020-02: Score=0.40 (9 positive, 1 negative, 6 neutral)
  * 2020-03: Score=-0.07 (1 positive, 4 negative, 0 neutral)

3. amazonhelp_analysis.json - Service Analysis:
- Analysis timestamp: 2024-11-20T10:00:00
- Relevant Key Issues:

- Relevant Recommendations:


INSTRUCTIONS:
1. Only use data from these three sources
2. If information isn't in these sources, state that explicitly
3. Keep responses focused on the actual data
4. Please summarize the key information without extra details
5. Give me the most relevant fact, no additional context

User Question: zzz

Based on ONLY the above data sources, provide an evidence-based response:".

End Example.

(** ** Facts about the primitives *)

Module JsFacts.

Lemma append_assoc (a b c : string) : (a +++ b) +++ c = a +++ b +++ c.
Proof. induction a as [|x a IH]; simpl; [reflexivity | now rewrite IH]. Qed.

Lemma append_empty_r (a : string) : a +++ EmptyString = a.
Proof. induction a as [|x a IH]; simpl; [reflexivity | now rewrite IH]. Qed.

Lemma startsWith_spec (s term : string) :
  startsWith s term = true <-> exists post, s = term +++ post.
Proof.
  revert s; induction term as [|a term IH]; intros s.
  - destruct s; simpl; split; intros _; eauto.
  - destruct s as [|b s]; simpl.
    + split; [discriminate | intros [post H]; discriminate].
    + rewrite andb_true_iff, Ascii.eqb_eq, IH. split.
      * intros [-> [post ->]]. now exists post.
      * intros [post H]. injection H as -> ->. eauto.
Qed.

Lemma includes_spec (s term : string) :
  includes s term = true <-> exists pre post, s = pre +++ term +++ post.
Proof.
  induction s as [|c s IH].
  - cbn [includes]. rewrite orb_false_r, startsWith_spec. split.
    + intros [post H]. now exists EmptyString, post.
    + intros [pre [post H]]. destruct pre; [eauto | discriminate].
  - cbn [includes]. rewrite orb_true_iff, startsWith_spec, IH. split.
    + intros [[post H] | [pre [post H]]].
      * now exists EmptyString, post.
      * exists (String c pre), post. simpl. now rewrite H.
    + intros [pre [post H]]. destruct pre as [|x pre]; simpl in H.
      * left. eauto.
      * right. injection H as _ H. eauto.
Qed.

Lemma includes_empty (s : string) : includes s EmptyString = true.
Proof. apply includes_spec. now exists EmptyString, s. Qed.

Lemma some_spec {A : Type} (p : A -> bool) (l : list A) :
  some p l = true <-> exists x, In x l /\ p x = true.
Proof. apply existsb_exists. Qed.

Lemma slice_prefix {A : Type} (l : list A) (n : Z) :
  (0 <= n)%Z -> slice l 0 n = firstn (Z.to_nat n) l.
Proof.
  intros Hn. unfold slice, rel_index.
  destruct (Z.ltb_spec n 0) as [H|_]; [lia|].
  change (0 <? 0)%Z with false. cbv iota.
  rewrite (Z.min_l 0) by lia. rewrite Z.sub_0_r. cbn [Z.to_nat skipn].
  destruct (Z.le_ge_cases n (Z.of_nat (length l))) as [H|H].
  - now rewrite Z.min_l by lia.
  - rewrite Z.min_r by lia. rewrite Nat2Z.id.
    rewrite firstn_all. symmetry. apply firstn_all2. lia.
Qed.

Lemma slice_suffix {A : Type} (l : list A) (n : nat) :
  (0 < n)%nat -> slice_from l (- Z.of_nat n) = skipn (length l - n) l.
Proof.
  intros Hn. unfold slice_from, slice, rel_index.
  destruct (Z.ltb_spec (- Z.of_nat n) 0) as [_|H]; [|lia].
  destruct (Z.ltb_spec (Z.of_nat (length l)) 0) as [H|_]; [lia|].
  rewrite Z.min_id.
  replace (Z.to_nat (Z.max (Z.of_nat (length l) + - Z.of_nat n) 0))
    with (length l - n)%nat by lia.
  apply firstn_all2. rewrite length_skipn. lia.
Qed.

Lemma index_first {A : Type} (l : list A) : index l 0 = hd_error l.
Proof. destruct l; reflexivity. Qed.

Lemma index_last {A : Type} (l : list A) (d : A) :
  index l (Z.of_nat (length l) - 1) =
  match l with [] => None | _ :: _ => Some (last l d) end.
Proof.
  unfold index. destruct l as [|x l]; [reflexivity|].
  destruct (Z.ltb_spec (Z.of_nat (length (x :: l)) - 1) 0) as [H|_];
    [cbn [length] in H; lia|].
  replace (Z.to_nat (Z.of_nat (length (x :: l)) - 1)) with (length l)
    by (cbn [length]; lia).
  revert x. induction l as [|y l IH]; intros x; [reflexivity|].
  cbn [length nth_error]. rewrite IH. reflexivity.
Qed.

Lemma index_none_iff_empty {A : Type} (l : list A) :
  index l 0 = None <-> l = [].
Proof. rewrite index_first. destruct l; simpl; split; congruence. Qed.

Section Sorting.

Context {A : Type} (cmp : A -> A -> JsTime).

Lemma sort_insert_perm (x : A) (l : list A) :
  Permutation (sort_insert cmp x l) (x :: l).
Proof.
  induction l as [|y l IH]; simpl; [reflexivity|].
  destruct (goes_after (cmp x y)); [|reflexivity].
  rewrite IH. apply perm_swap.
Qed.

Lemma sort_perm (l : list A) : Permutation (sort cmp l) l.
Proof.
  induction l as [|x l IH]; simpl; [reflexivity|].
  rewrite sort_insert_perm. now constructor.
Qed.

Lemma sort_length (l : list A) : length (sort cmp l) = length l.
Proof. apply Permutation_length, sort_perm. Qed.

Lemma sort_nil_iff (l : list A) : sort cmp l = [] <-> l = [].
Proof.
  split; [|intros ->; reflexivity].
  intros H. apply length_zero_iff_nil. rewrite <- sort_length, H. reflexivity.
Qed.

(** When the comparator is the difference of a time that every element
    has, the result is in ascending order of that time. *)
Variable time : A -> Z.
Variable P : A -> Prop.
Hypothesis cmp_time :
  forall a b, P a -> P b -> cmp a b = Some (time a - time b)%Z.

Lemma sort_insert_sorted (x : A) (l : list A) :
  P x -> Forall P l ->
  StronglySorted (not_later time) l ->
  StronglySorted (not_later time) (sort_insert cmp x l).
Proof.
  intros Px Pl Hs. induction Hs as [|y l Hs IH Hy]; simpl.
  - repeat constructor.
  - inversion Pl as [|? ? Py Pl']; subst.
    rewrite (cmp_time x y Px Py). cbn [goes_after].
    destruct (Z.ltb_spec 0 (time x - time y)) as [H|H].
    + constructor; [now apply IH|].
      apply (Permutation_Forall (x := x :: l)).
      * symmetry. apply sort_insert_perm.
      * constructor; [unfold not_later; lia | exact Hy].
    + constructor; [now constructor|].
      constructor; [unfold not_later; lia|].
      eapply Forall_impl; [|exact Hy].
      unfold not_later. intros; lia.
Qed.

Lemma sort_sorted (l : list A) :
  Forall P l -> StronglySorted (not_later time) (sort cmp l).
Proof.
  induction l as [|x l IH]; intros Pl; simpl; [constructor|].
  inversion Pl; subst. apply sort_insert_sorted; auto.
  apply (Permutation_Forall (x := l)); [symmetry; apply sort_perm | assumption].
Qed.

End Sorting.

End JsFacts.

(** ** Further facts about the search terms *)

Module TermFacts.

Lemma split_not_nil (sep : ascii) (s : string) : split sep s <> [].
Proof.
  destruct s as [|c s]; simpl; [discriminate|].
  destruct (Ascii.eqb c sep); [discriminate|].
  destruct (split sep s); discriminate.
Qed.

Lemma join_split (sep : ascii) (s : string) :
  join (String sep EmptyString) (split sep s) = s.
Proof.
  induction s as [|c s IH]; [reflexivity|].
  cbn [split]. destruct (Ascii.eqb_spec c sep) as [->|Hc].
  - pose proof (split_not_nil sep s) as Hn.
    destruct (split sep s) as [|w ws]; [contradiction|].
    change (join (String sep EmptyString) (EmptyString :: w :: ws))
      with (String sep (join (String sep EmptyString) (w :: ws))).
    now rewrite IH.
  - pose proof (split_not_nil sep s) as Hn.
    destruct (split sep s) as [|w ws]; [contradiction|].
    destruct ws as [|w' ws].
    + cbn in IH |- *. now rewrite IH.
    + change (join (String sep EmptyString) (String c w :: w' :: ws))
        with (String c (join (String sep EmptyString) (w :: w' :: ws))).
      now rewrite IH.
Qed.

Lemma split_no_separator (sep : ascii) (s w : string) :
  In w (split sep s) -> includes w (String sep EmptyString) = false.
Proof.
  revert w. induction s as [|c s IH]; intros w Hin.
  - destruct Hin as [<-|[]]. reflexivity.
  - cbn [split] in Hin. destruct (Ascii.eqb_spec c sep) as [->|Hc].
    + destruct Hin as [<-|Hin]; [reflexivity | now apply IH].
    + pose proof (split_not_nil sep s) as Hn.
      destruct (split sep s) as [|w0 ws]; [contradiction|].
      destruct Hin as [<-|Hin]; [|apply IH; now right].
      cbn [includes startsWith].
      assert (E : Ascii.eqb sep c = false).
      { apply Ascii.eqb_neq. congruence. }
      rewrite E. cbn [andb orb]. apply IH. now left.
Qed.

Lemma split_app (sep : ascii) (a b : string) :
  split sep (a +++ String sep b) = split sep a ++ split sep b.
Proof.
  induction a as [|c a IH].
  - cbn. now rewrite Ascii.eqb_refl.
  - cbn [String.append split]. rewrite IH.
    destruct (Ascii.eqb c sep); [reflexivity|].
    pose proof (split_not_nil sep a) as Hn.
    destruct (split sep a); [contradiction | reflexivity].
Qed.

Lemma lower_ascii_idem (c : ascii) : lower_ascii (lower_ascii c) = lower_ascii c.
Proof. destruct c as [[] [] [] [] [] [] [] []]; reflexivity. Qed.

Lemma toLowerCase_idem (s : string) : toLowerCase (toLowerCase s) = toLowerCase s.
Proof.
  induction s as [|c s IH]; [reflexivity|].
  cbn [toLowerCase]. now rewrite lower_ascii_idem, IH.
Qed.

Lemma toLowerCase_app (a b : string) :
  toLowerCase (a +++ b) = toLowerCase a +++ toLowerCase b.
Proof.
  induction a as [|c a IH]; [reflexivity|].
  cbn [String.append toLowerCase]. now rewrite IH.
Qed.

Lemma searchTerms_app (q1 q2 : string) :
  searchTerms (q1 +++ " " +++ q2) = searchTerms q1 ++ searchTerms q2.
Proof.
  unfold searchTerms. rewrite toLowerCase_app.
  change (toLowerCase (" " +++ q2)) with (String " "%char (toLowerCase q2)).
  apply split_app.
Qed.

Lemma filter_ext_eq {A : Type} (p q : A -> bool) (l : list A) :
  (forall x, p x = q x) -> filter p l = filter q l.
Proof.
  intros H. induction l as [|x l IH]; simpl; [reflexivity|].
  now rewrite H, IH.
Qed.

Lemma split_sepfree (sep : ascii) (w : string) :
  includes w (String sep EmptyString) = false -> split sep w = [w].
Proof.
  induction w as [|c w IH]; intros H; [reflexivity|].
  cbn [includes startsWith] in H.
  apply orb_false_iff in H. destruct H as [H1 H2].
  assert (S : startsWith w EmptyString = true) by (destruct w; reflexivity).
  rewrite S, andb_true_r in H1.
  cbn [split]. rewrite Ascii.eqb_sym, H1. now rewrite (IH H2).
Qed.

Lemma split_join (sep : ascii) (l : list string) :
  l <> [] ->
  (forall w, In w l -> includes w (String sep EmptyString) = false) ->
  split sep (join (String sep EmptyString) l) = l.
Proof.
  induction l as [|w l IH]; intros Hne Hl; [contradiction|].
  destruct l as [|w' l].
  - apply split_sepfree. apply Hl. now left.
  - change (join (String sep EmptyString) (w :: w' :: l))
      with (w +++ String sep (join (String sep EmptyString) (w' :: l))).
    rewrite split_app, IH.
    + rewrite split_sepfree; [reflexivity | apply Hl; now left].
    + discriminate.
    + intros x Hx. apply Hl. now right.
Qed.

(** The terms of a query are fixed by three facts: there is one at
    least, none holds a space, and single spaces join them to the
    lower-cased query. *)
Lemma searchTerms_unique (query : string) (terms : list string) :
  terms <> [] ->
  (forall term, In term terms -> includes term " " = false) ->
  join " " terms = toLowerCase query ->
  searchTerms query = terms.
Proof.
  intros Hne Hs Hj. unfold searchTerms. rewrite <- Hj. now apply split_join.
Qed.

End TermFacts.

Import TermFacts.

(** ** The relevance selector *)

Import JsFacts.
Import Example.

Lemma filter_all {A : Type} (p : A -> bool) (l : list A) :
  (forall x, p x = true) -> filter p l = l.
Proof.
  intros Hp. induction l as [|x l IH]; simpl; [reflexivity|].
  now rewrite Hp, IH.
Qed.

Lemma firstn_In {A : Type} (n : nat) (l : list A) (x : A) :
  In x (firstn n l) -> In x l.
Proof.
  intros H. rewrite <- (firstn_skipn n l). apply in_or_app. now left.
Qed.

Lemma matches_query_spec (query : string) (t : Tweet) (s : string) :
  text t = JStr s ->
  (matches_query query t = true <->
   exists term, In term (searchTerms query) /\
     exists pre post, toLowerCase s = pre +++ term +++ post).
Proof.
  intros Ht. unfold matches_query. rewrite Ht, some_spec.
  split; intros [term [Hin H]]; exists term; split; auto;
    now apply includes_spec.
Qed.

Lemma tweet_matches_string (query : string) (t : Tweet) :
  text_is_string t -> tweet_matches query t = Ok (matches_query query t).
Proof.
  intros [s Hs]. unfold tweet_matches, matches_query. now rewrite Hs.
Qed.

Lemma tweet_matches_throws (query : string) (t : Tweet) :
  ~ text_is_string t -> tweet_matches query t = Throw TypeError.
Proof.
  intros H. unfold tweet_matches, text_is_string in *.
  destruct (text t); try reflexivity. exfalso. apply H. eauto.
Qed.

Lemma text_is_string_dec (t : Tweet) : text_is_string t \/ ~ text_is_string t.
Proof.
  unfold text_is_string. destruct (text t);
    try (right; intros [s H]; discriminate). left. eauto.
Qed.

Lemma strings_only_dec (tweets : list Tweet) :
  strings_only tweets \/ ~ strings_only tweets.
Proof.
  unfold strings_only. induction tweets as [|t l IH]; [left; constructor|].
  destruct (text_is_string_dec t) as [Ht|Ht].
  - destruct IH as [IH|IH]; [left; now constructor|].
    right. intros H. inversion H. contradiction.
  - right. intros H. inversion H. contradiction.
Qed.

Lemma filterM_strings (query : string) (tweets : list Tweet) :
  strings_only tweets ->
  filterM (tweet_matches query) tweets = Ok (filter (matches_query query) tweets).
Proof.
  intros H. induction H as [|t l Ht Hl IH]; [reflexivity|].
  cbn [filterM filter]. rewrite (tweet_matches_string query t Ht), IH.
  reflexivity.
Qed.

Lemma filterM_throws (query : string) (tweets : list Tweet) :
  ~ strings_only tweets -> filterM (tweet_matches query) tweets = Throw TypeError.
Proof.
  induction tweets as [|t l IH]; intros H.
  - exfalso. apply H. constructor.
  - cbn [filterM]. destruct (text_is_string_dec t) as [Ht|Ht].
    + rewrite (tweet_matches_string query t Ht), IH; [reflexivity|].
      intros Hl. apply H. now constructor.
    + now rewrite (tweet_matches_throws query t Ht).
Qed.

(** What [findRelevantTweets] does with a log: it selects when every
    text is a string and throws as soon as one is not. *)
Lemma findRelevantTweets_strings (tweets : list Tweet) (query : string)
  (limit : Z) :
  strings_only tweets ->
  findRelevantTweets tweets query limit =
  Ok (slice (filter (matches_query query) tweets) 0 limit).
Proof.
  intros H. unfold findRelevantTweets. now rewrite (filterM_strings query tweets H).
Qed.

Lemma findRelevantTweets_throws (tweets : list Tweet) (query : string)
  (limit : Z) :
  ~ strings_only tweets -> findRelevantTweets tweets query limit = Throw TypeError.
Proof.
  intros H. unfold findRelevantTweets. now rewrite (filterM_throws query tweets H).
Qed.

Lemma searchTerms_empty : searchTerms EmptyString = [EmptyString].
Proof. reflexivity. Qed.

Lemma empty_term_matches_tweet (query : string) (t : Tweet) :
  In EmptyString (searchTerms query) -> text_is_string t ->
  matches_query query t = true.
Proof.
  intros Hin [s Hs]. apply (matches_query_spec query t s Hs).
  exists EmptyString. split; [assumption|]. now exists EmptyString, (toLowerCase s).
Qed.

Lemma empty_term_matches_item (query : string) (it : Item) :
  In EmptyString (searchTerms query) -> item_matches query it = true.
Proof.
  intros Hin. unfold item_matches. apply some_spec.
  exists EmptyString. split; [assumption|].
  now rewrite includes_empty.
Qed.

Lemma filter_all_in {A : Type} (p : A -> bool) (l : list A) :
  (forall x, In x l -> p x = true) -> filter p l = l.
Proof.
  intros Hp. induction l as [|x l IH]; simpl; [reflexivity|].
  rewrite Hp by now left. f_equal. apply IH. intros y Hy. apply Hp. now right.
Qed.

(** C7, amended.  The terms of a query are the pieces of its
    lower-cased text between single spaces: [terms] is any non-empty
    list of space-free strings that single spaces join to the lower-cased
    query.  For a log whose texts are all strings, [findRelevantTweets]
    with its default limit returns the first five rows, in the order of
    the log, among those it keeps, hence at most five; and when no term
    is empty, it keeps a row exactly when the lower-cased text of the row
    contains one of the terms.  For a log with a text that is not a
    string it throws a [TypeError]. *)
Theorem findRelevantTweets_first_five (tweets : list Tweet) (query : string)
  (terms : list string) :
  terms <> [] ->
  (forall term, In term terms -> includes term " " = false) ->
  join " " terms = toLowerCase query ->
  (strings_only tweets ->
     exists keep : Tweet -> bool,
       findRelevantTweets tweets query 5 = Ok (firstn 5 (filter keep tweets))
       /\ (length (firstn 5 (filter keep tweets)) <= 5)%nat
       /\ (~ In EmptyString terms ->
           forall t s, text t = JStr s ->
             (keep t = true <->
              exists term, In term terms /\
                exists pre post, toLowerCase s = pre +++ term +++ post)))
  /\ (~ strings_only tweets ->
        findRelevantTweets tweets query 5 = Throw TypeError).
Proof.
  intros Hne Hs Hj.
  pose proof (searchTerms_unique query terms Hne Hs Hj) as T.
  split.
  - intros Hstr. exists (matches_query query). split; [|split].
    + rewrite (findRelevantTweets_strings tweets query 5 Hstr).
      now rewrite slice_prefix by lia.
    + apply firstn_le_length.
    + intros _ t s Ht. rewrite <- T. now apply matches_query_spec.
  - apply findRelevantTweets_throws.
Qed.

(** The amended C7 on the sample log and a query of two terms. *)
Lemma findRelevantTweets_first_five_witness :
  ["refund"; "delay"] <> []
  /\ join " " ["refund"; "delay"] = toLowerCase "Refund DELAY"
  /\ strings_only sample_tweets
  /\ exists keep : Tweet -> bool,
       findRelevantTweets sample_tweets "Refund DELAY" 5 =
       Ok (firstn 5 (filter keep sample_tweets)).
Proof.
  assert (Hne : ["refund"; "delay"] <> []) by discriminate.
  assert (Hj : join " " ["refund"; "delay"] = toLowerCase "Refund DELAY")
    by reflexivity.
  assert (Hs : forall term, In term ["refund"; "delay"] ->
                 includes term " " = false).
  { intros term [<-|[<-|[]]]; reflexivity. }
  assert (Hstr : strings_only sample_tweets).
  { repeat constructor; eexists; reflexivity. }
  split; [exact Hne|]. split; [exact Hj|]. split; [exact Hstr|].
  destruct (proj1 (findRelevantTweets_first_five sample_tweets "Refund DELAY"
                     ["refund"; "delay"] Hne Hs Hj) Hstr) as [keep [H _]].
  exists keep. exact H.
Defined.

(** C7 fails as stated.  A log in which one text cell reads [12345] is
    typed as a number by the CSV reader, and the selector then throws
    for every query instead of returning matches; and a query whose two
    words are separated by a tab is one single term, so the row that
    contains the word "refund" is not selected. *)
Lemma selector_throws_on_numeric_text :
  findRelevantTweets
    [ refund_tweet "Tue Oct 31 22:10:47 +0000 2017";
      {| tweet_id := JNum "3"; author_id := JNum "115713";
         inbound := JStr "True";
         created_at := JStr "Tue Oct 31 22:20:00 +0000 2017";
         text := JNum "12345"; response_tweet_id := JNull |} ]
    "refund" 5 = Throw TypeError
  /\ findRelevantTweets sample_tweets ("zzz" +++ String "009"%char "refund") 5
     = Ok []
  /\ findRelevantTweets sample_tweets "refund" 5
     = Ok [refund_tweet "Tue Oct 31 22:10:47 +0000 2017"].
Proof. repeat split. Qed.


Section SelectorFacts.

Context {RT : Runtime}.

Lemma by_date_valid (a b : MonthEntry) :
  valid_key a -> valid_key b -> by_date a b = Some (key_time a - key_time b)%Z.
Proof.
  unfold valid_key, by_date, key_time.
  destruct (Date_getTime (fst a)), (Date_getTime (fst b)); simpl; congruence.
Qed.

Lemma sorted_chronological (l : list MonthEntry) :
  Forall valid_key l ->
  StronglySorted (not_later key_time) l -> StronglySorted chronological l.
Proof.
  intros Hv Hs. induction Hs as [|x l Hs IH Hx]; constructor.
  - apply IH. now inversion Hv.
  - inversion Hv as [|? ? Vx Vl]; subst.
    rewrite Forall_forall in *. intros y Hy.
    specialize (Hx y Hy). specialize (Vl y Hy).
    unfold chronological, not_later, key_time, valid_key in *.
    destruct (Date_getTime (fst x)), (Date_getTime (fst y)); congruence.
Qed.

Lemma sort_by_date_chronological (entries : list MonthEntry) :
  Forall valid_key entries -> StronglySorted chronological (sort by_date entries).
Proof.
  intros Hv. apply sorted_chronological.
  - apply (Permutation_Forall (x := entries));
      [symmetry; apply sort_perm | assumption].
  - apply (sort_sorted by_date key_time valid_key by_date_valid). assumption.
Qed.

Lemma analyzeSentimentTrends_entries (entries : list MonthEntry) :
  analyzeSentimentTrends (Some {| monthly_sentiment := Some entries |}) =
  let sortedMonths := sort by_date entries in
  Ok {| earliest := hd_error sortedMonths;
        latest := match sortedMonths with
                  | [] => None
                  | e :: _ => Some (last sortedMonths e)
                  end;
        trend := skipn (length sortedMonths - 3) sortedMonths |}.
Proof.
  unfold analyzeSentimentTrends. cbn [deref Object_entries bind monthly_sentiment].
  cbv zeta. rewrite index_first.
  change (-3)%Z with (- Z.of_nat 3)%Z. rewrite slice_suffix by lia.
  destruct (sort by_date entries) as [|e l] eqn:E; [reflexivity|].
  now rewrite (index_last _ e).
Qed.

(** C6: the sentiment summary of a selection does not depend on the
    query; it holds the first entry, the last entry and the last three
    entries of the periods sorted by date, and that order is
    chronological whenever every period key is a valid date. *)
Theorem sentiment_summary_ignores_query (q1 q2 : string)
  (ad : option AnalysisData) (sd : option SentimentData) (tw : list Tweet) :
  summary_of (select q1 ad sd tw) = summary_of (select q2 ad sd tw)
  /\ (forall sel, select q1 ad sd tw = Ok sel ->
        analyzeSentimentTrends sd = Ok (sentimentTrends sel))
  /\ (forall entries,
        let sortedMonths := sort by_date entries in
        analyzeSentimentTrends (Some {| monthly_sentiment := Some entries |}) =
          Ok {| earliest := hd_error sortedMonths;
                latest := match sortedMonths with
                          | [] => None
                          | e :: _ => Some (last sortedMonths e)
                          end;
                trend := skipn (length sortedMonths - 3) sortedMonths |}
        /\ Permutation sortedMonths entries
        /\ (Forall valid_key entries -> StronglySorted chronological sortedMonths)).
Proof.
  split; [|split].
  - unfold summary_of, select.
    destruct (strings_only_dec tw) as [Hs|Hs].
    + rewrite !(findRelevantTweets_strings _ _ _ Hs). cbn [bind].
      destruct (analyzeSentimentTrends sd) as [st|e]; [|reflexivity].
      destruct ad as [a|]; reflexivity.
    + rewrite !(findRelevantTweets_throws _ _ _ Hs). reflexivity.
  - intros sel. unfold select.
    destruct (findRelevantTweets tw q1 5) as [rt|e0]; [|discriminate].
    cbn [bind].
    destruct (analyzeSentimentTrends sd) as [st|e]; [|discriminate].
    destruct ad as [a|]; [|discriminate].
    cbn. intros H. injection H as <-. reflexivity.
  - intros entries sortedMonths. split; [|split].
    + apply analyzeSentimentTrends_entries.
    + apply sort_perm.
    + apply sort_by_date_chronological.
Qed.

End SelectorFacts.

(** The summary of the sample periods, whose keys are out of order. *)
Lemma sentiment_summary_ignores_query_witness :
  Forall valid_key [jan2020; mar2020; feb2020]
  /\ StronglySorted chronological
       (sort by_date [jan2020; mar2020; feb2020]).
Proof.
  assert (V : Forall valid_key [jan2020; mar2020; feb2020]).
  { repeat constructor; unfold valid_key; cbn; discriminate. }
  split; [exact V|].
  apply (sentiment_summary_ignores_query "a" "b" None None []). exact V.
Defined.

(** ** The prompt composer *)

Section ComposerFacts.

Context {RT : Runtime}.

Lemma entry_key_ok (o : option MonthEntry) :
  is_ok (entry_key o) = true <-> o <> None.
Proof. destruct o; simpl; split; congruence. Qed.

(** The template throws exactly when the summary lacks its first or its
    last entry; otherwise the prompt is the seven parts in order. *)
Lemma compose_cases (query : string) (sel : Selection) (meta : ReportMeta) :
  match earliest (sentimentTrends sel), latest (sentimentTrends sel) with
  | Some e, Some l =>
      compose query sel meta =
      Ok (preamble +++
          tweets_section (total_tweets meta) (relevantTweets sel) +++
          sentiment_section (fst e) (fst l) (trend (sentimentTrends sel)) +++
          analysis_section (report_timestamp meta) (relevantIssues sel)
                           (relevantRecommendations sel) +++
          instructions +++ question query +++ closing)
  | _, _ => compose query sel meta = Throw TypeError
  end.
Proof.
  unfold compose.
  destruct (earliest (sentimentTrends sel)) as [e|]; [|reflexivity].
  destruct (latest (sentimentTrends sel)) as [l|]; reflexivity.
Qed.

(** A sentiment map with at least one period has a first and a last
    entry. *)
Lemma trends_defined (entries : list MonthEntry) :
  entries <> [] ->
  exists e l tr,
    analyzeSentimentTrends (Some {| monthly_sentiment := Some entries |}) =
      Ok {| earliest := Some e; latest := Some l; trend := tr |}.
Proof.
  intros Hne. rewrite analyzeSentimentTrends_entries. cbv zeta.
  destruct (sort by_date entries) as [|e l] eqn:E.
  - apply sort_nil_iff in E. contradiction.
  - now exists e, (last (e :: l) e), (skipn (length (e :: l) - 3) (e :: l)).
Qed.

Lemma trends_empty :
  analyzeSentimentTrends (Some {| monthly_sentiment := Some [] |}) =
  Ok {| earliest := None; latest := None; trend := [] |}.
Proof. reflexivity. Qed.

(** With a report, a non-empty sentiment map and a log whose texts are
    strings the prompt is built, for every query. *)
Lemma buildContext_ok (query : string) (ad : AnalysisData)
  (entries : list MonthEntry) (tw : list Tweet) :
  entries <> [] -> strings_only tw ->
  exists first_key last_key tr,
    buildContext query (Some ad) (Some {| monthly_sentiment := Some entries |}) tw =
    Ok (preamble +++
        tweets_section (length tw) (firstn 5 (filter (matches_query query) tw)) +++
        sentiment_section first_key last_key tr +++
        analysis_section (timestamp ad)
          (filter (item_matches query) (keyIssues ad))
          (filter (item_matches query) (recommendations ad)) +++
        instructions +++ question query +++ closing).
Proof.
  intros Hne Hs. destruct (trends_defined entries Hne) as [e [l [tr H]]].
  exists (fst e), (fst l), tr.
  unfold buildContext, select.
  rewrite (findRelevantTweets_strings tw query 5 Hs), slice_prefix by lia.
  cbn [bind]. rewrite H. reflexivity.
Qed.

(** A log with a text that is not a string stops the prompt before
    anything else is looked at. *)
Lemma buildContext_throws_on_text (query : string) (ad : option AnalysisData)
  (sd : option SentimentData) (tw : list Tweet) :
  ~ strings_only tw -> buildContext query ad sd tw = Throw TypeError.
Proof.
  intros H. unfold buildContext, select.
  now rewrite (findRelevantTweets_throws tw query 5 H).
Qed.

(** The line of a row, written out. *)
Lemma tweet_line_explicit (r : Tweet) :
  tweet_line r =
  "  * [" +++ toString (created_at r) +++ "] " +++
  (match inbound r with
   | JStr "True" => "Customer"
   | _ => "Amazon"
   end) +++ ": " +++ dq +++ toString (text r) +++ dq.
Proof.
  unfold tweet_line, interaction_text, speaker, strict_eq_str.
  destruct (inbound r) as [| | b | n | d | s]; try reflexivity.
  destruct (String.eqb_spec s "True") as [->|Hs]; [reflexivity|].
  destruct s as [|c0 s]; [reflexivity|].
  repeat (match goal with
          | |- context [match ?c with Ascii _ _ _ _ _ _ _ _ => _ end] =>
              destruct c as [[] [] [] [] [] [] [] []]; try reflexivity
          | |- context [match ?s with EmptyString => _ | String _ _ => _ end] =>
              destruct s; try reflexivity
          end).
  now contradiction Hs.
Qed.

(** The interaction block of every prompt, written out line by line. *)
Lemma interaction_block (query : string) (ad : AnalysisData)
  (entries : list MonthEntry) (tweets : list Tweet) :
  entries <> [] -> strings_only tweets ->
  exists selected rest,
    findRelevantTweets tweets query 5 = Ok selected /\
    buildContext query (Some ad) (Some {| monthly_sentiment := Some entries |})
      tweets =
    Ok (preamble +++ tweets_header (length tweets) +++
        join nl (map (fun r =>
                        "  * [" +++ toString (created_at r) +++ "] " +++
                        (match inbound r with
                         | JStr "True" => "Customer"
                         | _ => "Amazon"
                         end) +++ ": " +++ dq +++ toString (text r) +++ dq)
                     selected) +++
        nl +++ nl +++
        "2. amazon_monthly_sentiment.json - Sentiment Analysis:" +++ rest).
Proof.
  intros Hne Hs.
  destruct (buildContext_ok query ad entries tweets Hne Hs) as [k1 [k2 [tr H]]].
  exists (firstn 5 (filter (matches_query query) tweets)).
  eexists. split.
  - rewrite (findRelevantTweets_strings tweets query 5 Hs).
    now rewrite slice_prefix by lia.
  - rewrite H. f_equal. f_equal. unfold tweets_section.
    rewrite (append_assoc (tweets_header _)), (append_assoc (join _ _)),
      (append_assoc nl).
    f_equal.
    rewrite (map_ext _ _ tweet_line_explicit).
    f_equal. f_equal. f_equal.
    unfold sentiment_section. rewrite append_assoc. simpl. reflexivity.
Qed.

(** C4, amended.  Against a log whose only row has the text "Please
    refund my order", the inbound cell ['True'] and the timestamp cell
    [T], all three as strings, the query "refund" selects that row and
    the prompt shows, as the only line under the interaction header, the
    bullet followed by [[T] Customer: "Please refund my order"].  In
    general, for every query and every log whose texts are strings, the
    lines under the interaction header are those of the selected rows in
    order, each made of the bullet, the timestamp in brackets, Customer
    when the inbound cell is the string ['True'] and Amazon for every
    other value, and the quoted text. *)
Theorem refund_scenario (T : string) (tid aid rid : JsVal) :
  let t := {| tweet_id := tid; author_id := aid; inbound := JStr "True";
              created_at := JStr T; text := JStr "Please refund my order";
              response_tweet_id := rid |} in
  findRelevantTweets [t] "refund" 5 = Ok [t]
  /\ (forall ad entries, entries <> [] ->
        exists rest,
          buildContext "refund" (Some ad)
            (Some {| monthly_sentiment := Some entries |}) [t] =
          Ok (preamble +++ tweets_header 1 +++ "  * " +++
              ("[" +++ T +++ "] Customer: " +++ dq +++ "Please refund my order"
               +++ dq) +++ nl +++ nl +++
              "2. amazon_monthly_sentiment.json - Sentiment Analysis:" +++ rest))
  /\ (forall tweets query ad entries,
        entries <> [] -> strings_only tweets ->
        exists selected rest,
          findRelevantTweets tweets query 5 = Ok selected /\
          buildContext query (Some ad)
            (Some {| monthly_sentiment := Some entries |}) tweets =
          Ok (preamble +++ tweets_header (length tweets) +++
              join nl (map (fun r =>
                              "  * [" +++ toString (created_at r) +++ "] " +++
                              (match inbound r with
                               | JStr "True" => "Customer"
                               | _ => "Amazon"
                               end) +++ ": " +++ dq +++ toString (text r) +++ dq)
                           selected) +++
              nl +++ nl +++
              "2. amazon_monthly_sentiment.json - Sentiment Analysis:" +++ rest)).
Proof.
  intros t.
  assert (E : findRelevantTweets [t] "refund" 5 = Ok [t]) by reflexivity.
  assert (S : strings_only [t]) by (repeat constructor; eexists; reflexivity).
  split; [exact E|]. split.
  - intros ad entries Hne.
    destruct (interaction_block "refund" ad entries [t] Hne S)
      as [selected [rest [Hsel H]]].
    rewrite E in Hsel. injection Hsel as <-.
    exists rest. rewrite H. reflexivity.
  - intros tweets query ad entries Hne Hs.
    now apply interaction_block.
Qed.

End ComposerFacts.

(** The amended C4 on a concrete sentiment map: the scenario, and the
    general statement on the sample log. *)
Lemma refund_scenario_witness :
  [jan2020] <> []
  /\ strings_only sample_tweets
  /\ (exists rest,
        buildContext "refund" (Some sample_analysis)
          (Some {| monthly_sentiment := Some [jan2020] |})
          [refund_tweet "Tue Oct 31 22:10:47 +0000 2017"] =
        Ok (preamble +++ tweets_header 1 +++ "  * " +++
            ("[" +++ "Tue Oct 31 22:10:47 +0000 2017" +++ "] Customer: " +++ dq
             +++ "Please refund my order" +++ dq) +++ nl +++ nl +++
            "2. amazon_monthly_sentiment.json - Sentiment Analysis:" +++ rest))
  /\ (exists selected rest,
        findRelevantTweets sample_tweets "sorry refund" 5 = Ok selected /\
        buildContext "sorry refund" (Some sample_analysis)
          (Some {| monthly_sentiment := Some [jan2020] |}) sample_tweets =
        Ok (preamble +++ tweets_header (length sample_tweets) +++
            join nl (map (fun r =>
                            "  * [" +++ toString (created_at r) +++ "] " +++
                            (match inbound r with
                             | JStr "True" => "Customer"
                             | _ => "Amazon"
                             end) +++ ": " +++ dq +++ toString (text r) +++ dq)
                         selected) +++
            nl +++ nl +++
            "2. amazon_monthly_sentiment.json - Sentiment Analysis:" +++ rest)).
Proof.
  assert (Hne : [jan2020] <> []) by discriminate.
  assert (Hs : strings_only sample_tweets)
    by (repeat constructor; eexists; reflexivity).
  destruct (refund_scenario "Tue Oct 31 22:10:47 +0000 2017"
              (JNum "1") (JNum "115712") JNull) as [_ [H1 H2]].
  split; [exact Hne|]. split; [exact Hs|]. split.
  - exact (H1 sample_analysis [jan2020] Hne).
  - exact (H2 sample_tweets "sorry refund" sample_analysis [jan2020] Hne Hs).
Defined.

(** C4 fails as stated for a flag that is the boolean [true], which is
    what dynamic typing makes of a cell that reads [true]: the row is
    then rendered as Amazon, not as Customer. *)
Lemma boolean_flag_is_rendered_as_Amazon :
  match buildContext "refund" (Some sample_analysis) (Some sample_sentiment)
          [ {| tweet_id := JNum "1"; author_id := JNum "115712";
               inbound := JBool true;
               created_at := JStr "Tue Oct 31 22:10:47 +0000 2017";
               text := JStr "Please refund my order";
               response_tweet_id := JNull |} ]
  with
  | Ok prompt =>
      includes prompt
        ("[Tue Oct 31 22:10:47 +0000 2017] Amazon: " +++ dq +++
         "Please refund my order" +++ dq)
      && negb (includes prompt
                 ("[Tue Oct 31 22:10:47 +0000 2017] Customer: " +++ dq +++
                  "Please refund my order" +++ dq))
  | Throw _ => false
  end = true.
Proof. vm_compute. reflexivity. Qed.

Section EmptyEvidence.

Context {RT : Runtime}.

(** C8, amended: zero matches never make the template throw (it throws
    exactly when the summary lacks its first or last period, whatever
    was matched); the prompt keeps all three dataset sections with their
    headers, and a collection without matches leaves the text under its
    header empty: nothing is written in its place. *)
Theorem empty_matches_keep_sections (query : string) (sel : Selection)
  (meta : ReportMeta) :
  (is_ok (compose query sel meta) = true <->
     earliest (sentimentTrends sel) <> None /\
     latest (sentimentTrends sel) <> None)
  /\ (forall prompt, compose query sel meta = Ok prompt ->
        exists first_key last_key,
          prompt =
          preamble +++
          (tweets_header (total_tweets meta) +++ examples_body sel +++ nl +++ nl) +++
          sentiment_section first_key last_key (trend (sentimentTrends sel)) +++
          (issues_header (report_timestamp meta) +++ issues_body sel +++ nl +++
           recommendations_header +++ recommendations_body sel +++ nl +++ nl) +++
          instructions +++ question query +++ closing)
  /\ (relevantTweets sel = [] -> examples_body sel = EmptyString)
  /\ (relevantIssues sel = [] -> issues_body sel = EmptyString)
  /\ (relevantRecommendations sel = [] -> recommendations_body sel = EmptyString).
Proof.
  pose proof (compose_cases query sel meta) as C.
  split; [|split; [|split; [|split]]].
  - destruct (earliest (sentimentTrends sel)) as [e|];
      [destruct (latest (sentimentTrends sel)) as [l|]|];
      rewrite C; simpl; split; try discriminate; try tauto.
    intros _; split; discriminate.
  - intros prompt Hp.
    destruct (earliest (sentimentTrends sel)) as [e|];
      [destruct (latest (sentimentTrends sel)) as [l|]|];
      rewrite C in Hp; try discriminate.
    injection Hp as <-. now exists (fst e), (fst l).
  - unfold examples_body. now intros ->.
  - unfold issues_body. now intros ->.
  - unfold recommendations_body. now intros ->.
Qed.

(** No event of the page writes to the loaded datasets. *)
Lemma step_keeps_datasets (w : World) (e : Event) :
  analysisData (app (step w e)) = analysisData (app w) /\
  sentimentData (app (step w e)) = sentimentData (app w) /\
  tweets (app (step w e)) = tweets (app w).
Proof.
  destruct e; unfold step, settle, handleSendMessage;
    repeat match goal with
           | |- context [match ?x with _ => _ end] => destruct x
           end; repeat split; reflexivity.
Qed.

Lemma run_keeps_datasets (es : list Event) (w : World) :
  analysisData (app (run w es)) = analysisData (app w) /\
  sentimentData (app (run w es)) = sentimentData (app w) /\
  tweets (app (run w es)) = tweets (app w).
Proof.
  revert w. induction es as [|e es IH]; intros w; [now repeat split|].
  change (run w (e :: es)) with (run (step w e) es).
  destruct (IH (step w e)) as [-> [-> ->]]. apply step_keeps_datasets.
Qed.

(** C9: composing with the same query, selection and report data gives
    the same prompt; and since no event of the page changes the loaded
    datasets, the prompt built for a query is the same before and after
    any sequence of events. *)
Theorem compose_deterministic (q1 q2 : string) (sel1 sel2 : Selection)
  (m1 m2 : ReportMeta) :
  q1 = q2 -> sel1 = sel2 -> m1 = m2 ->
  compose q1 sel1 m1 = compose q2 sel2 m2
  /\ (forall (w : World) (es : list Event),
        let w' := run w es in
        buildContext q1 (analysisData (app w')) (sentimentData (app w'))
                     (tweets (app w')) =
        buildContext q2 (analysisData (app w)) (sentimentData (app w))
                     (tweets (app w))).
Proof.
  intros -> -> ->. split; [reflexivity|].
  intros w es w'. subst w'.
  destruct (run_keeps_datasets es w) as [-> [-> ->]]. reflexivity.
Qed.

(** C10: with a sentiment map that has no period, the summary has an
    undefined first entry and reading its key throws a [TypeError]; the
    selection itself succeeds whenever the texts of the log are strings,
    so for every query no prompt is produced and the attempt ends in a
    [TypeError]; a send then issues no generation request and answers
    with the fallback text. *)
Theorem empty_sentiment_throws (query : string) (ad : AnalysisData)
  (tw : list Tweet) :
  (exists st,
     analyzeSentimentTrends (Some {| monthly_sentiment := Some [] |}) = Ok st
     /\ earliest st = None
     /\ entry_key (earliest st) = Throw TypeError
     /\ (strings_only tw ->
          exists sel,
            select query (Some ad) (Some {| monthly_sentiment := Some [] |}) tw
            = Ok sel /\ sentimentTrends sel = st))
  /\ buildContext query (Some ad) (Some {| monthly_sentiment := Some [] |}) tw
     = Throw TypeError
  /\ (forall w : World,
        analysisData (app w) = Some ad ->
        sentimentData (app w) = Some {| monthly_sentiment := Some [] |} ->
        truthy (trim (input (app w))) = true ->
        inflight (handleSendMessage w) = inflight w
        /\ messages (app (handleSendMessage w)) =
           messages (app w) ++ [ {| role := user; content := input (app w) |};
                                 {| role := assistant; content := fallback |} ]).
Proof.
  assert (B : forall q (l : list Tweet),
            buildContext q (Some ad) (Some {| monthly_sentiment := Some [] |}) l
            = Throw TypeError).
  { intros q l. destruct (strings_only_dec l) as [Hs|Hs].
    - unfold buildContext, select.
      rewrite (findRelevantTweets_strings l q 5 Hs). reflexivity.
    - now apply buildContext_throws_on_text. }
  split; [|split].
  - eexists. split; [reflexivity|]. split; [reflexivity|].
    split; [reflexivity|].
    intros Hs. unfold select.
    rewrite (findRelevantTweets_strings tw query 5 Hs). cbn.
    eexists. split; reflexivity.
  - apply B.
  - intros w Ha Hs Ht. unfold handleSendMessage.
    rewrite Ht, Ha, Hs. cbn [negb]. rewrite B.
    cbn. split; [reflexivity|].
    unfold assistant_says. now rewrite <- app_assoc.
Qed.

End EmptyEvidence.

(** C8 fails as stated: for the query "zzz" nothing matches, the prompt
    is built, and the text under the interaction header is empty; the
    prompt nowhere says that data is unavailable. *)
Lemma zero_matches_leave_section_silent :
  exists sel,
    select "zzz" (Some sample_analysis) (Some sample_sentiment) sample_tweets
    = Ok sel
    /\ relevantTweets sel = []
    /\ relevantIssues sel = []
    /\ relevantRecommendations sel = []
    /\ ~ empty_evidence_is_stated sel
    /\ buildContext "zzz" (Some sample_analysis) (Some sample_sentiment)
         sample_tweets = Ok zzz_prompt
    /\ includes (toLowerCase zzz_prompt) "unavailable" = false
    /\ includes zzz_prompt "- Relevant examples for this query:" = true.
Proof.
  exists {| relevantTweets := [];
            sentimentTrends :=
              {| earliest := Some jan2020;
                 latest := Some mar2020;
                 trend := [jan2020; feb2020; mar2020] |};
            relevantRecommendations := [];
            relevantIssues := [] |}.
  split; [reflexivity|].
  split; [reflexivity|]. split; [reflexivity|]. split; [reflexivity|].
  split; [intros H; apply H; reflexivity|].
  split; [vm_compute; reflexivity|].
  split; vm_compute; reflexivity.
Qed.

(** The amended C8 on the selection for "zzz". *)
Lemma empty_matches_keep_sections_witness :
  let sel := {| relevantTweets := [];
                sentimentTrends :=
                  {| earliest := Some jan2020;
                     latest := Some jan2020;
                     trend := [jan2020] |};
                relevantRecommendations := [];
                relevantIssues := [] |} in
  relevantTweets sel = [] /\ examples_body sel = EmptyString.
Proof.
  intros sel. split; [reflexivity|].
  apply (empty_matches_keep_sections "zzz" sel
           {| total_tweets := 2; report_timestamp := "2024-11-20T10:00:00" |}).
  reflexivity.
Defined.

(** C9 on the sample selection, and on the sample page before and after
    a send. *)
Lemma compose_deterministic_witness :
  let sel := {| relevantTweets := sample_tweets;
                sentimentTrends :=
                  {| earliest := Some jan2020;
                     latest := Some jan2020;
                     trend := [jan2020] |};
                relevantRecommendations := recommendations sample_analysis;
                relevantIssues := [] |} in
  let meta := {| total_tweets := 2; report_timestamp := "2024-11-20T10:00:00" |} in
  let w' := run loaded (send "zzz") in
  "refund" = "refund" /\ sel = sel /\ meta = meta
  /\ compose "refund" sel meta = compose "refund" sel meta
  /\ buildContext "refund" (analysisData (app w')) (sentimentData (app w'))
                  (tweets (app w')) =
     buildContext "refund" (analysisData (app loaded))
                  (sentimentData (app loaded)) (tweets (app loaded)).
Proof.
  intros sel meta w'.
  split; [reflexivity|]. split; [reflexivity|]. split; [reflexivity|].
  destruct (compose_deterministic "refund" "refund" sel sel meta meta
              eq_refl eq_refl eq_refl) as [H1 H2].
  split; [exact H1 | exact (H2 loaded (send "zzz"))].
Defined.

(** C10 on the loaded sample page with an empty sentiment map. *)
Lemma empty_sentiment_throws_witness :
  let w := {| app := setInput "refund"
                       (setSentimentData (Some empty_sentiment) (app loaded));
              inflight := [] |} in
  analysisData (app w) = Some sample_analysis
  /\ sentimentData (app w) = Some {| monthly_sentiment := Some [] |}
  /\ truthy (trim (input (app w))) = true
  /\ inflight (handleSendMessage w) = inflight w
  /\ messages (app (handleSendMessage w)) =
     messages (app w) ++ [ {| role := user; content := input (app w) |};
                           {| role := assistant; content := fallback |} ].
Proof.
  intros w.
  assert (Ha : analysisData (app w) = Some sample_analysis) by reflexivity.
  assert (Hs : sentimentData (app w) = Some {| monthly_sentiment := Some [] |})
    by reflexivity.
  assert (Ht : truthy (trim (input (app w))) = true) by reflexivity.
  split; [exact Ha|]. split; [exact Hs|]. split; [exact Ht|].
  destruct (empty_sentiment_throws "refund" sample_analysis sample_tweets)
    as [_ [_ H]].
  exact (H w Ha Hs Ht).
Defined.

(** ** The generation client and the conversation *)

Section ConversationFacts.

Context {RT : Runtime}.

(** C5: when the backend cannot be reached or answers with a
    non-success status, the [try] block throws, the [catch] turns it into
    the fallback text, so the call resolves instead of raising; the
    handler then appends exactly one assistant message holding that text
    and leaves the sending state. *)
Theorem generation_failure_gives_fallback (o : BackendOutcome) :
  generation_failed o ->
  (exists e, request_reply o = Throw e)
  /\ generate o = fallback
  /\ (forall (w : World) (n : nat) (req : GenerateRequest),
        nth_error (inflight w) n = Some req ->
        messages (app (settle n o w)) =
          messages (app w) ++ [ {| role := assistant; content := fallback |} ]
        /\ chatLoading (app (settle n o w)) = false
        /\ length (inflight (settle n o w)) = pred (length (inflight w))).
Proof.
  intros Hf.
  assert (G : generate o = fallback).
  { destruct Hf as [-> | [body ->]]; reflexivity. }
  split; [|split].
  - destruct Hf as [-> | [body ->]]; eexists; reflexivity.
  - exact G.
  - intros w n req Hn. unfold settle. rewrite Hn, G. cbn.
    repeat split.
    clear G Hf. revert n Hn. induction (inflight w) as [|x l IH]; intros n Hn.
    + destruct n; discriminate.
    + destruct n as [|n]; [reflexivity|].
      cbn in Hn |- *. rewrite (IH n Hn).
      destruct l; [destruct n; discriminate | reflexivity].
Qed.

(** The send button is guarded: while a send is in flight a click does
    nothing. *)
Lemma click_is_guarded (w : World) :
  chatLoading (app w) = true -> step w ClickSend = w.
Proof.
  intros H. unfold step. rewrite H.
  destruct (render (app w)); reflexivity.
Qed.

(** The Enter key is not: whatever [chatLoading] says, a non-blank input
    is appended to the transcript as a user message. *)
Lemma enter_is_not_guarded (w : World) :
  render (app w) = ViewDashboard ->
  truthy (trim (input (app w))) = true ->
  exists rest,
    messages (app (step w KeyPressEnter)) =
    messages (app w) ++ {| role := user; content := input (app w) |} :: rest.
Proof.
  intros Hr Ht. unfold step. rewrite Hr. unfold handleSendMessage.
  rewrite Ht. cbn [negb].
  destruct (buildContext _ _ _ _); cbn.
  - now exists [].
  - exists [ {| role := assistant; content := fallback |} ].
    unfold assistant_says. now rewrite <- app_assoc.
Qed.

(** A page that shows nothing and waits for no reply never changes. *)
Lemma null_view_is_terminal (w : World) (es : list Event) :
  render (app w) = ViewNull -> inflight w = [] -> run w es = w.
Proof.
  intros Hr Hi. induction es as [|e es IH]; [reflexivity|].
  change (run w (e :: es)) with (run (step w e) es).
  assert (E : step w e = w).
  { destruct e; unfold step, settle; rewrite ?Hr, ?Hi;
      try reflexivity. now destruct n. }
  now rewrite E.
Qed.

(** *** Start-up loading *)

Lemma loadData_try_fails (inp : LoadInputs) :
  fetch_or_parse_fails inp -> fst (loadData_try inp) = [].
Proof.
  unfold fetch_or_parse_fails, loadData_try, fetch_all.
  destruct (analysisResponse inp) as [|[a|]],
           (sentimentResponse inp) as [|[b|]],
           (tweetsResponse inp) as [|[c|]];
    try reflexivity.
  intros H. repeat (destruct H as [H|H]; try discriminate).
Qed.

(** Until [loadData] reaches its [finally] block the page shows the
    loading banner. *)
Lemma loading_until_finally (sets : list (AppState -> AppState)) (s : AppState) :
  loading s = true ->
  Forall (fun f => forall st, loading (f st) = loading st) sets ->
  Forall (fun st => render st = ViewLoading) (run_sets sets s).
Proof.
  intros Hl Hs. revert s Hl.
  induction Hs as [|f sets Hf Hs IH]; intros s Hl; cbn; constructor.
  - unfold render. now rewrite Hf, Hl.
  - apply IH. now rewrite Hf.
Qed.

(** When a fetch rejects or a body cannot be read, [loadData] has set
    none of the datasets: it only clears the loading flag, the component
    renders [null], no state it went through renders the dashboard, and
    no later event changes that. *)
Theorem load_failure_renders_nothing (inp : LoadInputs) :
  fetch_or_parse_fails inp ->
  loadData inp initial = setLoading false initial
  /\ render (loadData inp initial) = ViewNull
  /\ Forall (fun st => render st <> ViewDashboard)
       (run_sets (loadData_sets inp) initial)
  /\ (forall es,
        run {| app := loadData inp initial; inflight := [] |} es =
        {| app := loadData inp initial; inflight := [] |}).
Proof.
  intros Hf. pose proof (loadData_try_fails inp Hf) as E.
  assert (L : loadData inp initial = setLoading false initial).
  { unfold loadData, loadData_sets. now rewrite E. }
  split; [exact L|]. split; [now rewrite L|]. split.
  - unfold loadData_sets. rewrite E. cbn.
    constructor; [discriminate | constructor].
  - intros es. apply null_view_is_terminal; [now rewrite L | reflexivity].
Qed.

End ConversationFacts.

(** ** The page on the sample files *)

(** C5 on the sample page: the backend answers the pending call with a
    status 500. *)
Lemma generation_failure_gives_fallback_witness :
  let o := Responded false (Some "Internal Server Error") in
  let w := run loaded (send "refund") in
  generation_failed o
  /\ nth_error (inflight w) 0 =
     Some (generate_request (prompt (hd (generate_request EmptyString) (inflight w))))
  /\ messages (app (settle 0 o w)) =
     messages (app w) ++ [ {| role := assistant; content := fallback |} ].
Proof.
  intros o w.
  assert (Hf : generation_failed o) by (right; eexists; reflexivity).
  assert (Hn : nth_error (inflight w) 0 =
               Some (generate_request
                       (prompt (hd (generate_request EmptyString) (inflight w)))))
    by (lazy; reflexivity).
  split; [exact Hf|]. split; [exact Hn|].
  destruct (generation_failure_gives_fallback o Hf) as [_ [_ H]].
  exact (proj1 (H w 0%nat _ Hn)).
Defined.

(** The sample files when the fetch of the report is rejected. *)
Lemma load_failure_renders_nothing_witness :
  let inp := {| analysisResponse := Rejected;
                sentimentResponse := Resolved (Some sample_sentiment);
                tweetsResponse := Resolved (Some sample_csv) |} in
  fetch_or_parse_fails inp /\ render (loadData inp initial) = ViewNull.
Proof.
  intros inp.
  assert (Hf : fetch_or_parse_fails inp) by (left; reflexivity).
  split; [exact Hf|].
  exact (proj1 (proj2 (load_failure_renders_nothing inp Hf))).
Defined.

(** A sentiment document that parses but has no [monthly_sentiment] key
    is not a fetch or parse failure: [loadData] throws only after it has
    stored the report, the document and the log, and the dashboard is
    rendered with an empty chart. *)
Lemma missing_sentiment_map_still_renders :
  let inp := {| analysisResponse :=
                  Resolved (Some {| analysisData_of := Some sample_analysis |});
                sentimentResponse := Resolved (Some {| monthly_sentiment := None |});
                tweetsResponse := Resolved (Some sample_csv) |} in
  ~ fetch_or_parse_fails inp
  /\ render (loadData inp initial) = ViewDashboard
  /\ length (tweets (loadData inp initial)) = 2%nat
  /\ length (chartData (loadData inp initial)) = 0%nat.
Proof.
  intros inp. split; [|repeat split].
  intros H. repeat (destruct H as [H|H]; try discriminate).
Qed.

(** C1, as the code has it: "a" is sent with the Enter key and, while
    its generation call is still pending, "b" is sent the same way.  The
    second send is carried out: the transcript holds the two user
    messages and two generation calls are pending, the second with the
    question "b".  The same second send attempted with the button does
    nothing. *)
Theorem second_send_goes_through :
  let w1 := run loaded (send "a") in
  let w2 := run w1 (send "b") in
  let w2' := run w1 [Change "b"; ClickSend] in
  render (app loaded) = ViewDashboard
  /\ chatLoading (app w1) = true
  /\ length (inflight w1) = 1%nat
  /\ user_messages w2 = ["a"; "b"]
  /\ length (inflight w2) = 2%nat
  /\ map (fun r => includes (prompt r) "User Question: b") (inflight w2)
     = [false; true]
  /\ user_messages w2' = ["a"]
  /\ length (inflight w2') = 1%nat.
Proof.
  intros w1 w2 w2'. repeat split.
Qed.

(** The empty term also arises from queries that pass the send guard: a
    trailing or doubled space leaves an empty piece, and the query then
    selects every record. *)
Lemma trailing_space_selects_everything :
  truthy (trim "zzz ") = true
  /\ searchTerms "zzz " = ["zzz"; EmptyString]
  /\ findRelevantTweets sample_tweets "zzz" 5 = Ok []
  /\ findRelevantTweets sample_tweets "zzz " 5 = Ok sample_tweets.
Proof. repeat split. Qed.

(** Only the string ['True'] counts as the inbound flag: a cell that
    dynamic typing turned into the boolean [true] is rendered as Amazon. *)
Lemma boolean_inbound_renders_Amazon (t : Tweet) :
  inbound t = JBool true -> speaker t = "Amazon".
Proof. unfold speaker. now intros ->. Qed.


(** The terms of a query never contain a space, there is at least one
    of them, and joined again with single spaces they give back the
    lower-cased query. *)
Theorem searchTerms_rejoin (query : string) :
  join " " (searchTerms query) = toLowerCase query
  /\ searchTerms query <> []
  /\ (forall term, In term (searchTerms query) -> includes term " " = false).
Proof.
  unfold searchTerms. split; [apply join_split|].
  split; [apply split_not_nil|].
  intros term. apply split_no_separator.
Qed.

(** Matching ignores the case of the query: two queries with the same
    lower-cased text, such as a query and its lower-cased form, select
    the same interactions, issues and recommendations. *)
Theorem selection_ignores_query_case (q1 q2 : string)
  (tweets : list Tweet) (ad : option AnalysisData) :
  toLowerCase q1 = toLowerCase q2 ->
  findRelevantTweets tweets q1 5 = findRelevantTweets tweets q2 5
  /\ findRelevantIssues ad q1 = findRelevantIssues ad q2
  /\ findRelevantRecommendations ad q1 = findRelevantRecommendations ad q2
  /\ findRelevantTweets tweets (toLowerCase q1) 5 = findRelevantTweets tweets q1 5.
Proof.
  intros H.
  assert (T : searchTerms q1 = searchTerms q2) by (unfold searchTerms; now rewrite H).
  assert (T' : searchTerms (toLowerCase q1) = searchTerms q1).
  { unfold searchTerms. now rewrite toLowerCase_idem. }
  unfold findRelevantTweets, findRelevantIssues, findRelevantRecommendations,
    tweet_matches, item_matches.
  rewrite T', T. repeat split; reflexivity.
Qed.

Lemma selection_ignores_query_case_witness :
  toLowerCase "REFUND my Order" = toLowerCase "refund MY order"
  /\ findRelevantTweets sample_tweets "REFUND my Order" 5 =
     findRelevantTweets sample_tweets "refund MY order" 5.
Proof.
  assert (H : toLowerCase "REFUND my Order" = toLowerCase "refund MY order")
    by reflexivity.
  split; [exact H|].
  exact (proj1 (selection_ignores_query_case _ _ sample_tweets None H)).
Defined.

(** A query made of two parts separated by a space matches exactly the
    records that one of the parts matches: terms are alternatives.  On a
    row whose text is not a string the test throws for the combined
    query as it does for each part. *)
Theorem query_parts_are_alternatives (q1 q2 : string) (t : Tweet) (it : Item) :
  searchTerms (q1 +++ " " +++ q2) = searchTerms q1 ++ searchTerms q2
  /\ tweet_matches (q1 +++ " " +++ q2) t =
     (b1 <- tweet_matches q1 t ;; b2 <- tweet_matches q2 t ;; Ok (b1 || b2))
  /\ (text_is_string t ->
        tweet_matches (q1 +++ " " +++ q2) t =
        Ok (matches_query q1 t || matches_query q2 t))
  /\ item_matches (q1 +++ " " +++ q2) it = item_matches q1 it || item_matches q2 it.
Proof.
  split; [apply searchTerms_app|].
  assert (E : tweet_matches (q1 +++ " " +++ q2) t =
     (b1 <- tweet_matches q1 t ;; b2 <- tweet_matches q2 t ;; Ok (b1 || b2))).
  { unfold tweet_matches, some. rewrite searchTerms_app.
    destruct (call_toLowerCase (text t)); [|reflexivity].
    cbn [bind]. now rewrite existsb_app. }
  split; [exact E|]. split.
  - intros Ht. rewrite E, !(tweet_matches_string _ t Ht). reflexivity.
  - unfold item_matches, some. now rewrite searchTerms_app, existsb_app.
Qed.

(** A query that begins or ends with a space, or has two spaces in a
    row, has an empty term, and then every record is selected: the first
    five interactions of a log whose texts are strings, and all issues
    and recommendations. *)
Theorem stray_space_selects_everything (query a b : string)
  (tweets : list Tweet) (ad : AnalysisData) :
  query = " " +++ b \/ query = a +++ " " \/ query = a +++ "  " +++ b ->
  In EmptyString (searchTerms query)
  /\ (strings_only tweets ->
        findRelevantTweets tweets query 5 = Ok (firstn 5 tweets))
  /\ findRelevantIssues (Some ad) query = Ok (keyIssues ad)
  /\ findRelevantRecommendations (Some ad) query = Ok (recommendations ad).
Proof.
  intros H.
  assert (Hin : In EmptyString (searchTerms query)).
  { destruct H as [-> | [-> | ->]].
    - change (" " +++ b) with (EmptyString +++ " " +++ b).
      rewrite searchTerms_app. now left.
    - change (a +++ " ") with (a +++ " " +++ EmptyString).
      rewrite searchTerms_app. apply in_or_app. right. now left.
    - change (a +++ "  " +++ b) with (a +++ " " +++ (EmptyString +++ " " +++ b)).
      rewrite !searchTerms_app. apply in_or_app. right. now left. }
  split; [exact Hin|]. split; [|split].
  - intros Hs. rewrite (findRelevantTweets_strings tweets query 5 Hs).
    rewrite slice_prefix by lia. do 2 f_equal.
    apply filter_all_in. intros t Ht. apply empty_term_matches_tweet; [assumption|].
    unfold strings_only in Hs. rewrite Forall_forall in Hs. now apply Hs.
  - unfold findRelevantIssues. cbn. f_equal.
    apply filter_all. intros it. now apply empty_term_matches_item.
  - unfold findRelevantRecommendations. cbn. f_equal.
    apply filter_all. intros it. now apply empty_term_matches_item.
Qed.

Lemma stray_space_selects_everything_witness :
  "refund " = "refund" +++ " "
  /\ strings_only sample_tweets
  /\ findRelevantTweets sample_tweets "refund " 5 = Ok (firstn 5 sample_tweets).
Proof.
  assert (Hs : strings_only sample_tweets)
    by (repeat constructor; eexists; reflexivity).
  split; [reflexivity|]. split; [exact Hs|].
  apply (stray_space_selects_everything "refund " "refund" EmptyString
           sample_tweets sample_analysis); [|exact Hs].
  right; left; reflexivity.
Defined.

Lemma item_matches_spec (query : string) (it : Item) :
  item_matches query it = true <->
  exists term, In term (searchTerms query) /\
    ((exists pre post, toLowerCase (title it) = pre +++ term +++ post) \/
     (exists pre post, toLowerCase (description it) = pre +++ term +++ post)).
Proof.
  unfold item_matches. rewrite some_spec.
  split; intros [term [Hin H]]; exists term; split; auto.
  - apply orb_true_iff in H. destruct H as [H|H]; apply includes_spec in H; auto.
  - apply orb_true_iff. destruct H as [H|H]; apply includes_spec in H; auto.
Qed.

(** The issues and the recommendations selected for a query are all
    entries of the report, in the order of the report and without any
    cap, whose lower-cased title or description contains a term of the
    query; without a report the selector throws a [TypeError]. *)
Theorem report_items_selected (query : string) (ad : AnalysisData) :
  findRelevantIssues (Some ad) query =
    Ok (filter (item_matches query) (keyIssues ad))
  /\ findRelevantRecommendations (Some ad) query =
    Ok (filter (item_matches query) (recommendations ad))
  /\ (forall it, In it (filter (item_matches query) (keyIssues ad)) <->
        In it (keyIssues ad) /\
        exists term, In term (searchTerms query) /\
          ((exists pre post, toLowerCase (title it) = pre +++ term +++ post) \/
           (exists pre post, toLowerCase (description it) = pre +++ term +++ post)))
  /\ (forall it, In it (filter (item_matches query) (recommendations ad)) <->
        In it (recommendations ad) /\
        exists term, In term (searchTerms query) /\
          ((exists pre post, toLowerCase (title it) = pre +++ term +++ post) \/
           (exists pre post, toLowerCase (description it) = pre +++ term +++ post)))
  /\ findRelevantIssues None query = Throw TypeError
  /\ findRelevantRecommendations None query = Throw TypeError.
Proof.
  split; [reflexivity|]. split; [reflexivity|].
  split; [|split; [|split; reflexivity]];
    intros it; rewrite filter_In, item_matches_spec; reflexivity.
Qed.

(** The limit of [findRelevantTweets] follows [slice]: a limit of zero
    or more keeps that many first matches, a negative limit drops that
    many matches from the end instead; whether the call throws does not
    depend on the limit. *)
Theorem findRelevantTweets_limit (tweets : list Tweet) (query : string)
  (limit : Z) :
  ((0 <= limit)%Z ->
     findRelevantTweets tweets query limit =
     (matches <- filterM (tweet_matches query) tweets ;;
      Ok (firstn (Z.to_nat limit) matches)))
  /\ ((limit < 0)%Z ->
        findRelevantTweets tweets query limit =
        (matches <- filterM (tweet_matches query) tweets ;;
         Ok (firstn (length matches - Z.to_nat (- limit)) matches))).
Proof.
  unfold findRelevantTweets.
  destruct (filterM (tweet_matches query) tweets) as [matches|e];
    [|split; reflexivity].
  cbn [bind]. split; intros H.
  - now rewrite slice_prefix.
  - unfold slice, rel_index.
    destruct (Z.ltb_spec limit 0) as [_|H']; [|lia].
    change (0 <? 0)%Z with false. cbv iota.
    rewrite (Z.min_l 0) by lia. rewrite Z.sub_0_r. cbn [Z.to_nat skipn].
    do 2 f_equal. lia.
Qed.

Lemma findRelevantTweets_limit_witness :
  (0 <= 1)%Z /\ (-1 < 0)%Z
  /\ findRelevantTweets sample_tweets "e" 1 =
     (matches <- filterM (tweet_matches "e") sample_tweets ;;
      Ok (firstn 1 matches))
  /\ findRelevantTweets sample_tweets "e" (-1) =
     (matches <- filterM (tweet_matches "e") sample_tweets ;;
      Ok (firstn (length matches - 1) matches)).
Proof.
  split; [lia|]. split; [lia|].
  destruct (findRelevantTweets_limit sample_tweets "e" 1) as [H1 _].
  destruct (findRelevantTweets_limit sample_tweets "e" (-1)) as [_ H2].
  split; [apply H1; lia | apply H2; lia].
Defined.

(** ** Further facts about the sentiment summary and the prompt *)

Module OrderFacts.

Section Generic.

Context {A : Type} (R : A -> A -> Prop).

Lemma sorted_last_greatest (l : list A) (d : A) :
  (forall x, In x l -> R x x) ->
  StronglySorted R l -> forall x, In x l -> R x (last l d).
Proof.
  intros Hrefl Hs. induction Hs as [|a l Hs IH Ha]; intros x Hx; [destruct Hx|].
  destruct l as [|b r].
  - destruct Hx as [<-|[]]. apply Hrefl. now left.
  - change (last (a :: b :: r) d) with (last (b :: r) d).
    destruct Hx as [<-|Hx].
    + rewrite Forall_forall in Ha. apply Ha.
      destruct (exists_last (l := b :: r)) as [init [z E]]; [discriminate|].
      rewrite E, last_last. apply in_or_app. right. now left.
    + apply IH; [|exact Hx]. intros y Hy. apply Hrefl. now right.
Qed.

Lemma sorted_app_cross (l1 l2 : list A) :
  StronglySorted R (l1 ++ l2) ->
  forall a b, In a l1 -> In b l2 -> R a b.
Proof.
  induction l1 as [|x l1 IH]; intros Hs a b Ha Hb; [destruct Ha|].
  cbn in Hs. inversion Hs as [|? ? Hs' Hx]; subst.
  destruct Ha as [<-|Ha].
  - rewrite Forall_forall in Hx. apply Hx, in_or_app. now right.
  - now apply IH.
Qed.

End Generic.

Lemma last_skipn {A : Type} (l : list A) (k : nat) (d : A) :
  (k < length l)%nat -> last (skipn k l) d = last l d.
Proof.
  revert k. induction l as [|x l IH]; intros k Hk; [cbn in Hk; lia|].
  destruct k as [|k]; [reflexivity|].
  cbn [skipn]. cbn [length] in Hk. rewrite IH by lia.
  destruct l; [cbn in Hk; lia | reflexivity].
Qed.

Lemma sorted_unique {A : Type} (time : A -> Z) (s1 s2 : list A) :
  StronglySorted (not_later time) s1 ->
  StronglySorted (not_later time) s2 ->
  Permutation s1 s2 ->
  (forall a b, In a s1 -> In b s1 -> time a = time b -> a = b) ->
  s1 = s2.
Proof.
  intros H1. revert s2. induction H1 as [|a s1 H1 IH Ha]; intros s2 H2 Hp Hinj.
  - now apply Permutation_nil in Hp.
  - destruct s2 as [|b s2]; [now apply Permutation_sym, Permutation_nil in Hp|].
    inversion H2 as [|? ? H2' Hb]; subst.
    rewrite Forall_forall in Ha, Hb.
    assert (Hab : (time a <= time b)%Z).
    { assert (In b (a :: s1))
        by (apply (Permutation_in (l := b :: s2)); [now symmetry | now left]).
      destruct H as [<-|H]; [lia | now apply Ha]. }
    assert (Hba : (time b <= time a)%Z).
    { assert (In a (b :: s2))
        by (apply (Permutation_in (l := a :: s1)); [assumption | now left]).
      destruct H as [<-|H]; [lia | now apply Hb]. }
    assert (E : a = b).
    { apply Hinj; [now left | | lia].
      apply (Permutation_in (l := b :: s2)); [now symmetry | now left]. }
    subst b. f_equal. apply IH; [assumption | now apply Permutation_cons_inv in Hp |].
    intros x y Hx Hy. apply Hinj; now right.
Qed.

Lemma sort_insert_map {A B : Type} (f : A -> B) (cmpA : A -> A -> JsTime)
  (cmpB : B -> B -> JsTime) (x : A) (l : list A) :
  (forall a b, cmpB (f a) (f b) = cmpA a b) ->
  sort_insert cmpB (f x) (map f l) = map f (sort_insert cmpA x l).
Proof.
  intros H. induction l as [|y l IH]; [reflexivity|].
  cbn [map sort_insert]. rewrite H.
  destruct (goes_after (cmpA x y)); [|reflexivity].
  cbn [map]. now rewrite IH.
Qed.

Lemma sort_map {A B : Type} (f : A -> B) (cmpA : A -> A -> JsTime)
  (cmpB : B -> B -> JsTime) (l : list A) :
  (forall a b, cmpB (f a) (f b) = cmpA a b) ->
  sort cmpB (map f l) = map f (sort cmpA l).
Proof.
  intros H. induction l as [|x l IH]; [reflexivity|].
  cbn [map sort]. rewrite IH. now apply sort_insert_map.
Qed.

End OrderFacts.

Import OrderFacts.

Section SummaryFacts.

Context {RT : Runtime}.

Lemma chronological_refl (e : MonthEntry) : valid_key e -> chronological e e.
Proof.
  unfold valid_key, chronological.
  destruct (Date_getTime (fst e)); [lia | congruence].
Qed.

Lemma sort_by_date_valid (entries : list MonthEntry) :
  Forall valid_key entries -> Forall valid_key (sort by_date entries).
Proof.
  apply Permutation_Forall. symmetry. apply sort_perm.
Qed.

(** For period keys that are valid dates: no period of the map is
    earlier than the summary's earliest entry or later than its latest
    entry; the trend holds the last three periods, or all of them when
    there are fewer, none of them earlier than a period left out; and the
    latest entry is the last line of the trend. *)
Theorem summary_bounds (entries : list MonthEntry) (st : Trends) :
  Forall valid_key entries ->
  analyzeSentimentTrends (Some {| monthly_sentiment := Some entries |}) = Ok st ->
  (forall f e, earliest st = Some f -> In e entries -> chronological f e)
  /\ (forall l e, latest st = Some l -> In e entries -> chronological e l)
  /\ length (trend st) = Nat.min 3 (length entries)
  /\ (exists older, Permutation (older ++ trend st) entries /\
        forall o r, In o older -> In r (trend st) -> chronological o r)
  /\ (forall l, latest st = Some l -> exists init, trend st = init ++ [l]).
Proof.
  intros Hv. rewrite analyzeSentimentTrends_entries. cbv zeta.
  pose proof (sort_by_date_chronological entries Hv) as Hs.
  pose proof (sort_by_date_valid entries Hv) as Hv'.
  pose proof (sort_perm by_date entries) as Hp.
  pose proof (sort_length by_date entries) as Hl.
  remember (sort by_date entries) as sortedMonths eqn:Es.
  intros H. injection H as <-. cbn [earliest latest trend].
  split; [|split; [|split; [|split]]].
  - intros f e Hf He.
    apply (Permutation_in (l' := sortedMonths)) in He; [|now symmetry].
    destruct sortedMonths as [|x r]; [discriminate|].
    injection Hf as ->. destruct He as [<-|He].
    + apply chronological_refl. now inversion Hv'.
    + inversion Hs as [|? ? _ Hx]; subst.
      rewrite Forall_forall in Hx. now apply Hx.
  - intros l e Hl' He.
    apply (Permutation_in (l' := sortedMonths)) in He; [|now symmetry].
    destruct sortedMonths as [|x r]; [discriminate|].
    injection Hl' as <-.
    apply (sorted_last_greatest chronological (x :: r) x); try assumption.
    intros y Hy. apply chronological_refl.
    rewrite Forall_forall in Hv'. now apply Hv'.
  - rewrite length_skipn, Hl. lia.
  - exists (firstn (length sortedMonths - 3) sortedMonths). split.
    + now rewrite firstn_skipn.
    + intros o r Ho Hr.
      apply (sorted_app_cross chronological
               (firstn (length sortedMonths - 3) sortedMonths)
               (skipn (length sortedMonths - 3) sortedMonths));
        [now rewrite firstn_skipn | assumption | assumption].
  - intros l Hl'.
    destruct sortedMonths as [|x r]; [discriminate|].
    injection Hl' as <-.
    assert (Hne : skipn (length (x :: r) - 3) (x :: r) <> []).
    { intros C. apply (f_equal (@length _)) in C.
      rewrite length_skipn in C. cbn [length] in C. lia. }
    destruct (exists_last Hne) as [init [z Ez]].
    assert (Ex : last (x :: r) x = z).
    { rewrite <- (last_skipn (x :: r) (length (x :: r) - 3) x)
        by (cbn [length]; lia).
      rewrite Ez. apply last_last. }
    exists init. rewrite Ez. f_equal. f_equal. symmetry. exact Ex.
Qed.

(** The summary does not depend on the order in which the sentiment map
    lists its periods, as long as their keys are valid dates and no two
    of them fall on the same date. *)
Theorem summary_ignores_key_order (l1 l2 : list MonthEntry) :
  Permutation l1 l2 ->
  Forall valid_key l1 ->
  (forall a b, In a l1 -> In b l1 -> key_time a = key_time b -> a = b) ->
  sort by_date l1 = sort by_date l2
  /\ analyzeSentimentTrends (Some {| monthly_sentiment := Some l1 |}) =
     analyzeSentimentTrends (Some {| monthly_sentiment := Some l2 |}).
Proof.
  intros Hp Hv Hinj.
  assert (E : sort by_date l1 = sort by_date l2).
  { apply (sorted_unique key_time).
    - apply (sort_sorted by_date key_time valid_key by_date_valid). assumption.
    - apply (sort_sorted by_date key_time valid_key by_date_valid).
      now apply (Permutation_Forall Hp).
    - rewrite (sort_perm by_date l1), (sort_perm by_date l2). assumption.
    - intros a b Ha Hb. apply Hinj;
        now apply (Permutation_in (l := sort by_date l1)); [apply sort_perm|]. }
  split; [exact E|].
  rewrite !analyzeSentimentTrends_entries. cbv zeta. now rewrite E.
Qed.

(** The chart shows the periods in the order the prompt's summary sorts
    them: sorting the chart points by date gives the chart points of the
    sorted periods. *)
Theorem chart_follows_summary_order (entries : list MonthEntry) :
  sort by_chart_date (map chart_point entries) =
    map chart_point (sort by_date entries)
  /\ map date (sort by_chart_date (map chart_point entries)) =
     map fst (sort by_date entries)
  /\ length (sort by_chart_date (map chart_point entries)) = length entries.
Proof.
  assert (E : sort by_chart_date (map chart_point entries) =
              map chart_point (sort by_date entries)).
  { apply sort_map. intros [a da] [b db]. reflexivity. }
  rewrite E. split; [reflexivity|]. split.
  - rewrite map_map. apply map_ext. intros [a da]. reflexivity.
  - now rewrite length_map, sort_length.
Qed.

Lemma buildContext_strings (query : string) (ad : option AnalysisData)
  (sd : option SentimentData) (tw : list Tweet) :
  strings_only tw ->
  buildContext query ad sd tw =
  (sel <- (st <- analyzeSentimentTrends sd ;;
           rr <- findRelevantRecommendations ad query ;;
           ri <- findRelevantIssues ad query ;;
           Ok {| relevantTweets := firstn 5 (filter (matches_query query) tw);
                 sentimentTrends := st;
                 relevantRecommendations := rr; relevantIssues := ri |}) ;;
   meta <- report_meta ad tw ;;
   compose query sel meta).
Proof.
  intros Hs. unfold buildContext, select.
  rewrite (findRelevantTweets_strings tw query 5 Hs), slice_prefix by lia.
  reflexivity.
Qed.

(** The prompt is built exactly when the texts of the log are all
    strings, there is a report, and the sentiment map has at least one
    period, whatever the query is; in every other case the attempt
    throws a [TypeError], and nothing else. *)
Theorem buildContext_succeeds_iff (query : string) (ad : option AnalysisData)
  (sd : option SentimentData) (tw : list Tweet) :
  ((exists p, buildContext query ad sd tw = Ok p) <->
     (strings_only tw /\
      exists a entries,
        ad = Some a /\ sd = Some {| monthly_sentiment := Some entries |} /\
        entries <> []))
  /\ ((forall p, buildContext query ad sd tw <> Ok p) ->
        buildContext query ad sd tw = Throw TypeError).
Proof.
  destruct (strings_only_dec tw) as [Hs|Hs].
  2:{ rewrite (buildContext_throws_on_text query ad sd tw Hs).
      split; [split|reflexivity].
      - intros [p H]. discriminate.
      - intros [H _]. contradiction. }
  destruct sd as [[[entries|]]|].
  - assert (D : entries = [] \/ entries <> [])
      by (destruct entries; [now left | right; discriminate]).
    destruct D as [->|Hne].
    + assert (E : buildContext query ad (Some {| monthly_sentiment := Some [] |}) tw
                  = Throw TypeError).
      { rewrite (buildContext_strings _ _ _ _ Hs). destruct ad; reflexivity. }
      rewrite E. split; [split|reflexivity].
      * intros [p H]. discriminate.
      * intros [_ [a [entries [_ [H Hne]]]]]. injection H as <-. contradiction.
    + destruct ad as [a|].
      * destruct (buildContext_ok query a entries tw Hne Hs) as [k1 [k2 [tr H]]].
        rewrite H. split; [split|].
        -- intros _. split; [exact Hs|]. now exists a, entries.
        -- intros _. eexists. reflexivity.
        -- intros C. exfalso. eapply C. reflexivity.
      * assert (E : buildContext query None
                      (Some {| monthly_sentiment := Some entries |}) tw
                    = Throw TypeError).
        { rewrite (buildContext_strings _ _ _ _ Hs).
          destruct (trends_defined entries Hne) as [e [l [tr H]]].
          rewrite H. reflexivity. }
        rewrite E. split; [split|reflexivity].
        -- intros [p H]. discriminate.
        -- intros [_ [a [en [H _]]]]. discriminate.
  - assert (E : buildContext query ad (Some {| monthly_sentiment := None |}) tw
                = Throw TypeError)
      by (rewrite (buildContext_strings _ _ _ _ Hs); reflexivity).
    rewrite E. split; [split|reflexivity].
    + intros [p H]. discriminate.
    + intros [_ [a [en [_ [H _]]]]]. discriminate.
  - assert (E : buildContext query ad None tw = Throw TypeError)
      by (rewrite (buildContext_strings _ _ _ _ Hs); reflexivity).
    rewrite E. split; [split|reflexivity].
    + intros [p H]. discriminate.
    + intros [_ [a [en [_ [H _]]]]]. discriminate.
Qed.

Lemma buildContext_ok_inv (query : string) (ad : option AnalysisData)
  (sd : option SentimentData) (tw : list Tweet) (p : string) :
  buildContext query ad sd tw = Ok p ->
  strings_only tw /\
  exists a entries,
    ad = Some a /\ sd = Some {| monthly_sentiment := Some entries |} /\
    entries <> [].
Proof.
  intros H.
  destruct (strings_only_dec tw) as [Hs|Hs];
    [|rewrite (buildContext_throws_on_text _ _ _ _ Hs) in H; discriminate].
  split; [exact Hs|].
  rewrite (buildContext_strings _ _ _ _ Hs) in H.
  destruct sd as [[[entries|]]|]; try discriminate.
  destruct ad as [a|].
  - exists a, entries. repeat split. intros ->. discriminate.
  - exfalso. destruct (analyzeSentimentTrends _); discriminate.
Qed.

Lemma frame_assoc (pre s1 s2 s3 ins q cl : string) :
  pre +++ s1 +++ s2 +++ s3 +++ ins +++ question q +++ cl =
  pre +++ (s1 +++ s2 +++ s3) +++ ins +++
  "User Question: " +++ q +++ nl +++ nl +++ cl.
Proof. unfold question. now rewrite !append_assoc. Qed.

(** Every prompt that is built opens with the preamble and closes with
    the instruction block, the user's question as typed and the closing
    directive; both stop sequences of the generation request occur in
    the prompt itself. *)
Theorem prompt_frame (query : string) (ad : option AnalysisData)
  (sd : option SentimentData) (tw : list Tweet) (p : string) :
  buildContext query ad sd tw = Ok p ->
  (exists body,
     p = preamble +++ body +++ instructions +++
         "User Question: " +++ query +++ nl +++ nl +++ closing)
  /\ (forall s, In s (stop (generate_request p)) -> includes p s = true).
Proof.
  intros H.
  assert (S : exists body,
     p = preamble +++ body +++ instructions +++
         "User Question: " +++ query +++ nl +++ nl +++ closing).
  { destruct (buildContext_ok_inv query ad sd tw p H)
      as [Hs [a [entries [-> [-> Hne]]]]].
    destruct (buildContext_ok query a entries tw Hne Hs) as [k1 [k2 [tr E]]].
    rewrite E in H.
    assert (Hp : forall x y : string, @Ok string x = Ok y -> y = x)
      by (intros x y Hxy; congruence).
    apply Hp in H. rewrite H. eexists. apply frame_assoc. }
  split; [exact S|].
  destruct S as [body ->]. intros s [<-|[<-|[]]]; apply includes_spec.
  - exists (preamble +++ body +++ instructions).
    exists (" " +++ query +++ nl +++ nl +++ closing).
    rewrite !append_assoc. reflexivity.
  - exists (preamble +++ body). eexists.
    rewrite !append_assoc. unfold instructions. cbn [String.append]. reflexivity.
Qed.

End SummaryFacts.

(** Witnesses on the sample periods. *)
Lemma summary_bounds_witness :
  Forall valid_key [jan2020; mar2020; feb2020]
  /\ length (trend {| earliest := Some jan2020; latest := Some mar2020;
                      trend := [jan2020; feb2020; mar2020] |}) =
     Nat.min 3 (length [jan2020; mar2020; feb2020]).
Proof.
  assert (V : Forall valid_key [jan2020; mar2020; feb2020])
    by (repeat constructor; unfold valid_key; cbn; discriminate).
  split; [exact V|].
  apply (summary_bounds [jan2020; mar2020; feb2020] _ V). reflexivity.
Defined.

Lemma summary_ignores_key_order_witness :
  Permutation [jan2020; mar2020; feb2020] [feb2020; jan2020; mar2020]
  /\ sort by_date [jan2020; mar2020; feb2020] =
     sort by_date [feb2020; jan2020; mar2020].
Proof.
  assert (P : Permutation [jan2020; mar2020; feb2020] [feb2020; jan2020; mar2020]).
  { apply perm_trans with (l' := [jan2020; feb2020; mar2020]).
    - apply perm_skip, perm_swap.
    - apply perm_swap. }
  split; [exact P|].
  apply (summary_ignores_key_order _ _ P).
  - repeat constructor; unfold valid_key; cbn; discriminate.
  - intros a b Ha Hb.
    repeat (destruct Ha as [<-|Ha]; [|]); try destruct Ha;
      repeat (destruct Hb as [<-|Hb]; [|]); try destruct Hb;
      cbn; intros E; try reflexivity; discriminate.
Defined.

Lemma prompt_frame_witness :
  buildContext "zzz" (Some sample_analysis) (Some sample_sentiment) sample_tweets
    = Ok zzz_prompt
  /\ forall s, In s (stop (generate_request zzz_prompt)) ->
               includes zzz_prompt s = true.
Proof.
  assert (H : buildContext "zzz" (Some sample_analysis) (Some sample_sentiment)
                sample_tweets = Ok zzz_prompt) by (vm_compute; reflexivity).
  split; [exact H|].
  exact (proj2 (prompt_frame _ _ _ _ _ H)).
Defined.

(** ** Further facts about the conversation and the loader *)

Module TrimFacts.

Lemma chars_reverse (s : string) :
  list_ascii_of_string (reverse s) = rev (list_ascii_of_string s).
Proof. unfold reverse. apply list_ascii_of_string_of_list_ascii. Qed.

Lemma chars_nil (s : string) : list_ascii_of_string s = [] <-> s = EmptyString.
Proof. destruct s; simpl; split; congruence. Qed.

Lemma reverse_empty (s : string) : reverse s = EmptyString <-> s = EmptyString.
Proof.
  rewrite <- (chars_nil (reverse s)), chars_reverse, <- chars_nil.
  split; intros H.
  - apply (f_equal (@rev ascii)) in H. now rewrite rev_involutive in H.
  - now rewrite H.
Qed.

Lemma trimStart_empty (s : string) : trimStart s = EmptyString <-> blank s.
Proof.
  unfold blank. induction s as [|c s IH]; cbn.
  - split; [constructor | reflexivity].
  - destruct (is_space c) eqn:E.
    + rewrite IH. split; intros H; [now constructor | now inversion H].
    + split; [discriminate|]. intros H. inversion H. congruence.
Qed.

Lemma trimStart_not_blank (s : string) :
  blank (trimStart s) -> trimStart s = EmptyString.
Proof.
  induction s as [|c s IH]; cbn; [reflexivity|].
  destruct (is_space c) eqn:E; [exact IH|].
  unfold blank. cbn. intros H. inversion H. congruence.
Qed.

Lemma trim_empty (s : string) : trim s = EmptyString <-> blank s.
Proof.
  unfold trim. rewrite reverse_empty, trimStart_empty.
  unfold blank at 1. rewrite chars_reverse.
  split; intros H.
  - apply trimStart_empty, trimStart_not_blank.
    unfold blank. apply Forall_rev in H. now rewrite rev_involutive in H.
  - apply Forall_rev. apply trimStart_empty in H. now rewrite H.
Qed.

Lemma truthy_trim (s : string) : truthy (trim s) = false <-> blank s.
Proof.
  rewrite <- trim_empty. destruct (trim s); cbn; split; congruence.
Qed.

End TrimFacts.

Import TrimFacts.

Section MoreConversationFacts.

Context {RT : Runtime}.

(** A send does nothing at all exactly when the input is empty or holds
    only white space.  Otherwise the input as typed, untrimmed, becomes
    a user message at the end of the transcript, the input box is
    cleared, and at most one message, the fallback reply, follows at
    once. *)
Theorem send_rejects_blank_input (w : World) :
  (blank (input (app w)) -> handleSendMessage w = w)
  /\ (~ blank (input (app w)) ->
        input (app (handleSendMessage w)) = EmptyString
        /\ exists rest,
             messages (app (handleSendMessage w)) =
             messages (app w) ++ {| role := user; content := input (app w) |} :: rest
             /\ (rest = [] \/ rest = [ {| role := assistant; content := fallback |} ])).
Proof.
  split; intros H.
  - apply truthy_trim in H. unfold handleSendMessage. now rewrite H.
  - assert (T : truthy (trim (input (app w))) = true).
    { destruct (truthy (trim (input (app w)))) eqn:E; [reflexivity|].
      apply truthy_trim in E. contradiction. }
    unfold handleSendMessage. rewrite T. cbn [negb].
    destruct (buildContext _ _ _ _); cbn.
    + split; [reflexivity|]. exists []. auto.
    + split; [reflexivity|].
      exists [ {| role := assistant; content := fallback |} ].
      unfold assistant_says. rewrite <- app_assoc. auto.
Qed.

Lemma step_extends_transcript (w : World) (e : Event) :
  (exists rest, messages (app (step w e)) = messages (app w) ++ rest)
  /\ loading (app (step w e)) = loading (app w).
Proof.
  destruct e; unfold step, settle, handleSendMessage, assistant_says;
    repeat match goal with
           | |- context [match ?x with _ => _ end] => destruct x
           end; cbn; split; try reflexivity;
    try (now exists []; rewrite app_nil_r);
    try (eexists; reflexivity);
    try (eexists; rewrite <- app_assoc; reflexivity).
Qed.

(** The transcript is append-only and the view is fixed: whatever
    happens to the page, the messages it held remain, in place, at the
    front of the transcript, and the page keeps showing the view it
    showed. *)
Theorem transcript_is_append_only (w : World) (es : list Event) :
  (exists rest, messages (app (run w es)) = messages (app w) ++ rest)
  /\ render (app (run w es)) = render (app w).
Proof.
  revert w. induction es as [|e es IH]; intros w.
  - split; [now exists []; rewrite app_nil_r | reflexivity].
  - change (run w (e :: es)) with (run (step w e) es).
    destruct (IH (step w e)) as [[r2 H2] R2].
    destruct (step_extends_transcript w e) as [[r1 H1] L1].
    destruct (step_keeps_datasets w e) as [A1 _].
    split.
    + exists (r1 ++ r2). now rewrite H2, H1, app_assoc.
    + rewrite R2. unfold render. now rewrite L1, A1.
Qed.

Lemma remove_nth_length {A : Type} (n : nat) (l : list A) (x : A) :
  nth_error l n = Some x -> length l = S (length (remove_nth n l)).
Proof.
  revert n. induction l as [|y l IH]; intros n H.
  - destruct n; discriminate.
  - destruct n as [|n]; [reflexivity|].
    cbn [remove_nth length]. f_equal. now apply IH.
Qed.

Lemma remove_nth_split {A : Type} (n : nat) (l : list A) (x : A) :
  nth_error l n = Some x ->
  exists l1 l2, l = l1 ++ x :: l2 /\ length l1 = n /\ remove_nth n l = l1 ++ l2.
Proof.
  revert n. induction l as [|y l IH]; intros n H.
  - destruct n; discriminate.
  - destruct n as [|n].
    + injection H as <-. now exists [], l.
    + destruct (IH n H) as [l1 [l2 [E [L R]]]].
      exists (y :: l1), l2. cbn. now rewrite <- E, L, R.
Qed.

Lemma count_app_user (ms : list Message) (m : Message) :
  role m = user ->
  length (filter (fun m => match role m with user => true | _ => false end) (ms ++ [m]))
    = S (length (filter (fun m => match role m with user => true | _ => false end) ms))
  /\ length (filter is_assistant (ms ++ [m])) = length (filter is_assistant ms).
Proof.
  intros H. rewrite !filter_app, !length_app. unfold is_assistant. cbn.
  rewrite H. cbn. lia.
Qed.

Lemma count_app_assistant (ms : list Message) (m : Message) :
  role m = assistant ->
  length (filter (fun m => match role m with user => true | _ => false end) (ms ++ [m]))
    = length (filter (fun m => match role m with user => true | _ => false end) ms)
  /\ length (filter is_assistant (ms ++ [m])) = S (length (filter is_assistant ms)).
Proof.
  intros H. rewrite !filter_app, !length_app. unfold is_assistant. cbn.
  rewrite H. cbn. lia.
Qed.

Lemma step_keeps_balance (w : World) (e : Event) :
  balanced w -> balanced (step w e).
Proof.
  unfold balanced, user_messages, assistant_messages. rewrite !length_map.
  intros B.
  assert (S : forall n o, length
            (filter (fun m => match role m with user => true | _ => false end)
               (messages (app (settle n o w)))) =
          (length (filter is_assistant (messages (app (settle n o w)))) +
           length (inflight (settle n o w)))%nat).
  { intros n o. unfold settle.
    destruct (nth_error (inflight w) n) as [req|] eqn:E; [|exact B].
    cbn. unfold assistant_says.
    destruct (count_app_assistant (messages (app w))
                {| role := assistant; content := generate o |} eq_refl) as [-> ->].
    rewrite (remove_nth_length n (inflight w) req E) in B. lia. }
  assert (H : length
            (filter (fun m => match role m with user => true | _ => false end)
               (messages (app (handleSendMessage w)))) =
          (length (filter is_assistant (messages (app (handleSendMessage w)))) +
           length (inflight (handleSendMessage w)))%nat).
  { unfold handleSendMessage.
    destruct (negb (truthy (trim (input (app w))))); [exact B|].
    destruct (buildContext _ _ _ _); cbn; unfold assistant_says.
    - destruct (count_app_user (messages (app w))
                  {| role := user; content := input (app w) |} eq_refl) as [-> ->].
      rewrite length_app. cbn. lia.
    - destruct (count_app_assistant
                  (messages (app w) ++ [ {| role := user; content := input (app w) |} ])
                  {| role := assistant; content := fallback |} eq_refl) as [-> ->].
      destruct (count_app_user (messages (app w))
                  {| role := user; content := input (app w) |} eq_refl) as [-> ->].
      lia. }
  destruct e; unfold step; [| | |apply S];
    destruct (render (app w)); try exact B; try exact H.
  destruct (chatLoading (app w)); [exact B | exact H].
Qed.

(** Every user message is answered once: at any moment the number of
    user messages equals the number of assistant messages plus the
    number of generation calls still pending, so a page with no pending
    call holds as many replies as questions. *)
Theorem every_question_is_answered_once (w : World) (es : list Event) :
  balanced w ->
  balanced (run w es)
  /\ (inflight (run w es) = [] ->
        length (user_messages (run w es)) =
        length (assistant_messages (run w es))).
Proof.
  intros B.
  assert (R : balanced (run w es)).
  { revert w B. induction es as [|e es IH]; intros w B; [exact B|].
    change (run w (e :: es)) with (run (step w e) es).
    apply IH. now apply step_keeps_balance. }
  split; [exact R|]. intros E. unfold balanced in R. rewrite E in R.
  cbn in R. lia.
Qed.

Lemma exchanges_app (ms : list Message) (q r : string) :
  exchanges ms = true ->
  exchanges (ms ++ [ {| role := user; content := q |};
                     {| role := assistant; content := r |} ]) = true.
Proof.
  revert q r.
  assert (G : forall n ms, (length ms <= n)%nat -> exchanges ms = true ->
              forall q r, exchanges (ms ++ [ {| role := user; content := q |};
                     {| role := assistant; content := r |} ]) = true).
  { induction n as [|n IH]; intros l Hl He q r.
    - destruct l; [reflexivity | cbn in Hl; lia].
    - destruct l as [|m1 l]; [reflexivity|].
      cbn [exchanges] in He. destruct (role m1) eqn:R1; [|discriminate].
      destruct l as [|m2 l]; [discriminate|].
      destruct (role m2) eqn:R2; [discriminate|].
      rewrite <- !app_comm_cons. cbn [exchanges]. rewrite R1, R2.
      apply IH; [cbn in Hl; lia | exact He]. }
  intros q r H. now apply (G (length ms) ms).
Qed.

Lemma step_button_only (w : World) (e : Event) :
  e <> KeyPressEnter -> idle w \/ sending w -> idle (step w e) \/ sending (step w e).
Proof.
  intros He [I|S].
  - destruct I as [C [F X]].
    destruct e; try contradiction; unfold step.
    + destruct (render (app w)); [left | left | left]; repeat split; assumption.
    + destruct (render (app w)); try (left; repeat split; assumption).
      rewrite C. unfold handleSendMessage.
      destruct (negb (truthy (trim (input (app w)))));
        [left; repeat split; assumption|].
      destruct (buildContext _ _ _ _); cbn.
      * right. repeat split; cbn; [now rewrite F|].
        exists (messages (app w)), (input (app w)). now split.
      * left. repeat split; cbn; [assumption|].
        unfold assistant_says. rewrite <- app_assoc. now apply exchanges_app.
    + unfold settle. rewrite F. destruct n; left; repeat split; assumption.
  - destruct S as [C [L [ms [q [M X]]]]].
    destruct e; try contradiction; unfold step.
    + destruct (render (app w)); right; repeat split; try assumption;
        exists ms, q; now split.
    + rewrite C. destruct (render (app w)); right; repeat split; try assumption;
        exists ms, q; now split.
    + unfold settle. destruct (nth_error (inflight w) n) as [req|] eqn:E.
      * left. repeat split; cbn.
        -- pose proof (remove_nth_length n _ req E) as RL.
           rewrite L in RL.
           destruct (remove_nth n (inflight w)); [reflexivity | cbn in RL; lia].
        -- unfold assistant_says. rewrite M, <- app_assoc.
           now apply exchanges_app.
      * right. repeat split; try assumption. exists ms, q. now split.
Qed.

(** When messages are sent with the button only, the page alternates
    between two states: idle, with nothing pending and a transcript of
    complete question-and-reply pairs, and sending, with exactly one
    pending call for the question that ends the transcript.  At most one
    generation call is then pending at any time. *)
Theorem button_keeps_one_call_in_flight (w : World) (es : list Event) :
  button_only es ->
  idle w \/ sending w ->
  (idle (run w es) \/ sending (run w es))
  /\ (length (inflight (run w es)) <= 1)%nat
  /\ (chatLoading (app (run w es)) = true <-> inflight (run w es) <> []).
Proof.
  intros Hb Hw.
  assert (R : idle (run w es) \/ sending (run w es)).
  { revert w Hw. induction Hb as [|e es He Hb IH]; intros w Hw; [exact Hw|].
    change (run w (e :: es)) with (run (step w e) es).
    apply IH. now apply step_button_only. }
  split; [exact R|].
  destruct R as [[C [F _]] | [C [L _]]].
  - rewrite C, F. cbn. split; [lia|]. split; [discriminate | congruence].
  - rewrite C, L. split; [lia|]. split; [|reflexivity].
    intros _ E. rewrite E in L. discriminate.
Qed.

(** Settling a pending call appends exactly one assistant message, the
    backend's text when the status is a success and the body parses and
    the fallback in every other case, removes that call and leaves the
    other pending calls in their order; an index that names no pending
    call changes nothing. *)
Theorem settle_appends_one_reply (w : World) (n : nat) (o : BackendOutcome) :
  (nth_error (inflight w) n = None -> settle n o w = w)
  /\ (forall req, nth_error (inflight w) n = Some req ->
        messages (app (settle n o w)) =
          messages (app w) ++ [ {| role := assistant; content := reply_of o |} ]
        /\ chatLoading (app (settle n o w)) = false
        /\ input (app (settle n o w)) = input (app w)
        /\ exists before after,
             inflight w = before ++ req :: after /\ length before = n /\
             inflight (settle n o w) = before ++ after).
Proof.
  split.
  - intros H. unfold settle. now rewrite H.
  - intros req H. unfold settle. rewrite H. cbn.
    assert (G : generate o = reply_of o).
    { destruct o as [|[] [r|]]; reflexivity. }
    rewrite G. repeat split. now apply remove_nth_split.
Qed.

Lemma loadData_clears_loading (inp : LoadInputs) :
  loading (loadData inp initial) = false.
Proof.
  unfold loadData, loadData_sets. rewrite fold_left_app. reflexivity.
Qed.

(** What [loadData] leaves behind, for every outcome of the three
    fetches: either a fetch or a body read failed and nothing but the
    loading flag has changed, or the report, the sentiment document and
    the parsed log are all stored, with the chart points sorted by date
    when the document has its [monthly_sentiment] map and an empty chart
    when it has not.  In both cases the loading flag ends up cleared. *)
Theorem loadData_outcomes (inp : LoadInputs) :
  loading (loadData inp initial) = false
  /\ ((fetch_or_parse_fails inp /\ loadData inp initial = setLoading false initial)
      \/ (exists analysisJson sentimentJson tweetsText,
            analysisResponse inp = Resolved (Some analysisJson) /\
            sentimentResponse inp = Resolved (Some sentimentJson) /\
            tweetsResponse inp = Resolved (Some tweetsText) /\
            analysisData (loadData inp initial) = analysisData_of analysisJson /\
            sentimentData (loadData inp initial) = Some sentimentJson /\
            tweets (loadData inp initial) = Papa_parse_data tweetsText /\
            chartData (loadData inp initial) =
              match monthly_sentiment sentimentJson with
              | Some entries => sort by_chart_date (map chart_point entries)
              | None => []
              end /\
            messages (loadData inp initial) = [])).
Proof.
  unfold loadData, loadData_sets, loadData_try, fetch_all, fetch_or_parse_fails.
  destruct (analysisResponse inp) as [|[a|]];
    try (split; [reflexivity | left; split; [tauto | reflexivity]]);
  destruct (sentimentResponse inp) as [|[b|]];
    try (split; [try reflexivity; destruct (tweetsResponse inp) as [|[c|]]; reflexivity
                | left; split; [tauto |
                    try reflexivity; destruct (tweetsResponse inp) as [|[c|]]; reflexivity]]).
  destruct (tweetsResponse inp) as [|[c|]];
    try (split; [reflexivity | left; split; [tauto | reflexivity]]).
  cbn [read_body fst].
  destruct (monthly_sentiment b) as [entries|] eqn:M; cbn.
  - split; [reflexivity|]. right. exists a, b, c. rewrite M. repeat split.
  - split; [reflexivity|]. right. exists a, b, c. rewrite M. repeat split.
Qed.

(** While [loadData] runs the page shows the loading banner: every state
    before the last setter renders it, whatever the fetches return, and
    the last setter is the one that clears the flag. *)
Theorem loading_banner_until_done (inp : LoadInputs) :
  exists before,
    run_sets (loadData_sets inp) initial = before ++ [loadData inp initial]
    /\ Forall (fun st => render st = ViewLoading) before
    /\ render (loadData inp initial) <> ViewLoading.
Proof.
  assert (G : forall sets s,
            run_sets (sets ++ [setLoading false]) s =
            run_sets sets s ++
            [fold_left (fun st f => f st) (sets ++ [setLoading false]) s]).
  { induction sets as [|f sets IH]; intros s; [reflexivity|].
    cbn [List.app run_sets fold_left]. now rewrite IH. }
  exists (run_sets (fst (loadData_try inp)) initial).
  split; [apply G|]. split.
  - apply loading_until_finally; [reflexivity|].
    unfold loadData_try.
    destruct (fetch_all inp) as [[[a b] c]|]; [|constructor].
    destruct (read_body a); [|constructor].
    destruct (read_body b) as [sj|]; [|constructor].
    destruct (read_body c); [|constructor].
    destruct (Object_entries (monthly_sentiment sj)); cbn;
      repeat constructor.
  - unfold render. rewrite (loadData_clears_loading inp).
    destruct (analysisData (loadData inp initial)); discriminate.
Qed.

End MoreConversationFacts.

(** ** The further facts on the sample page *)

Lemma send_rejects_blank_input_witness :
  let w := {| app := setInput "   " (app loaded); inflight := [] |} in
  blank (input (app w)) /\ handleSendMessage w = w.
Proof.
  intros w.
  assert (B : blank (input (app w))) by (repeat constructor).
  split; [exact B|].
  exact (proj1 (send_rejects_blank_input w) B).
Defined.

Lemma every_question_is_answered_once_witness :
  let es := send "a" ++ send "b" ++ [Settle 0 Unreachable; Settle 0 Unreachable] in
  balanced loaded
  /\ inflight (run loaded es) = []
  /\ length (user_messages (run loaded es)) =
     length (assistant_messages (run loaded es)).
Proof.
  intros es.
  assert (B : balanced loaded) by reflexivity.
  assert (E : inflight (run loaded es) = []) by reflexivity.
  split; [exact B|]. split; [exact E|].
  exact (proj2 (every_question_is_answered_once loaded es B) E).
Defined.

Lemma button_keeps_one_call_in_flight_witness :
  let es := [Change "a"; ClickSend; Change "b"; ClickSend] in
  button_only es
  /\ (idle loaded \/ sending loaded)
  /\ (length (inflight (run loaded es)) <= 1)%nat.
Proof.
  intros es.
  assert (B : button_only es) by (repeat constructor; discriminate).
  assert (I : idle loaded \/ sending loaded) by (left; repeat split).
  split; [exact B|]. split; [exact I|].
  exact (proj1 (proj2 (button_keeps_one_call_in_flight loaded es B I))).
Defined.

Lemma settle_appends_one_reply_witness :
  let w := run loaded (send "refund") in
  let o := Responded true (Some "Refunds take five days.") in
  nth_error (inflight w) 0 =
    Some (generate_request (prompt (hd (generate_request EmptyString) (inflight w))))
  /\ messages (app (settle 0 o w)) =
     messages (app w) ++
     [ {| role := assistant; content := "Refunds take five days." |} ].
Proof.
  intros w o.
  assert (H : nth_error (inflight w) 0 =
    Some (generate_request (prompt (hd (generate_request EmptyString) (inflight w)))))
    by (lazy; reflexivity).
  split; [exact H|].
  exact (proj1 (proj2 (settle_appends_one_reply w 0%nat o) _ H)).
Defined.

(** ** Queries and responses that are not what they should be *)

Section Rejections.

Context {RT : Runtime}.


End Rejections.

(** C3, as the code has it: the fetch of the log is answered with
    status 404 and an error page.  The fetch resolves and the page reads
    as text, so [loadData] stores the report and the sentiment document,
    parses the error page as the log, and the dashboard is rendered: the
    log consists of rows without a text.  Every question then ends in
    the fallback reply without a generation request. *)
Theorem not_found_log_still_renders :
  let s := loadData inputs_without_log initial in
  let w := run {| app := s; inflight := [] |} (send "refund") in
  render s = ViewDashboard
  /\ analysisData s = Some sample_analysis
  /\ sentimentData s = Some sample_sentiment
  /\ length (chartData s) = 3%nat
  /\ map text (tweets s) = [JUndefined; JUndefined; JUndefined]
  /\ inflight w = []
  /\ messages (app w) = [ {| role := user; content := "refund" |};
                          {| role := assistant; content := fallback |} ].
Proof. intros s w. repeat split. Qed.
